(** * meal_max: the battle model and the Meal dataclass

    A shallow embedding of [meal_max/models/battle_model.py] and of the
    [Meal] dataclass of [meal_max/models/kitchen_model.py], followed by the
    properties of the battle engine.

    Python raises; the embedding returns [inl e] for a raised exception [e]
    and [inr v] for a returned value [v].  The combatant list, the record of
    calls made to [update_meal_stats] and the outside world (the database
    and random.org) are threaded through an exception-and-state monad: a
    raise keeps every mutation made before it, as in Python. *)

From Stdlib Require Import ZArith QArith Qabs Bool String List Floats Lia.
Import ListNotations.

Set Implicit Arguments.
Set Warnings "-inexact-float".

(** ** Exceptions *)

(** The exception classes the modelled code raises or lets through. *)
Inductive exn : Type :=
| ValueError (msg : string)
| KeyError (key : string)
| IndexError (msg : string)
| RuntimeError (msg : string)
| DatabaseError (msg : string).

(** ** Numbers *)

(** [price] is annotated [float], and nothing enforces the annotation: the
    code only uses [*] and [-] with an [int] on the right, [abs], [/], [<],
    [>] and [==].  [PyNumber] is that protocol.  [of_int] is the implicit
    conversion of the [int] operand; [is_or_eq x y] is the test
    [x is y or x == y] that tuple comparison and [list.remove] apply to
    elements, read on values (an object is itself). *)
Class PyNumber (num : Type) : Type := {
  of_int : Z -> num;
  times : num -> num -> num;
  minus : num -> num -> num;
  divide : num -> num -> num;
  absolute : num -> num;
  lt : num -> num -> bool;
  le : num -> num -> bool;
  eq_op : num -> num -> bool;
  is_or_eq : num -> num -> bool
}.

(** What the proofs use of the comparisons; it holds of [int], [float]
    (NaN included), [Fraction] and [Decimal]. *)
Class PyNumberLaws (num : Type) `{PyNumber num} : Prop := {
  is_or_eq_refl : forall x : num, is_or_eq x x = true;
  eq_op_not_lt : forall x y : num, eq_op x y = true -> lt y x = false;
  le_not_lt : forall x y : num, le x y = true -> lt y x = false
}.

Arguments PyNumberLaws num {H}.

(** *** binary64, the [float] of CPython *)

Module Binary64.

(** [float(z)] for an [int] [z]: the nearest binary64 value. *)
Definition float_of_int (z : Z) : float :=
  SF2Prim (binary_normalize prec emax z 0 false).

(** One NaN object is itself although [nan == nan] is false; [0.0 == -0.0]
    is true although the two differ. *)
Definition float_is_or_eq (x y : float) : bool :=
  PrimFloat.Leibniz.eqb x y || PrimFloat.eqb x y.

#[global] Instance float_PyNumber : PyNumber float := {
  of_int := float_of_int;
  times := PrimFloat.mul;
  minus := PrimFloat.sub;
  divide := PrimFloat.div;
  absolute := PrimFloat.abs;
  lt := PrimFloat.ltb;
  le := PrimFloat.leb;
  eq_op := PrimFloat.eqb;
  is_or_eq := float_is_or_eq
}.

End Binary64.

(** *** Exact rationals: [fractions.Fraction] prices

    No operation rounds.  An [int] price scores the same way; only its
    [delta] differs, [/] on two [int]s being a [float] division. *)

Module Exact.

Definition Q_lt (x y : Q) : bool := negb (Qle_bool y x).

#[global] Instance Q_PyNumber : PyNumber Q := {
  of_int := inject_Z;
  times := Qmult;
  minus := Qminus;
  divide := Qdiv;
  absolute := Qabs;
  lt := Q_lt;
  le := Qle_bool;
  eq_op := Qeq_bool;
  is_or_eq := Qeq_bool
}.

End Exact.

(** ** kitchen_model.py: the [Meal] dataclass *)

Section Kitchen.

Context {num : Type} `{PyNumber num}.

(** The dataclass is not frozen: a field can be assigned after
    construction, so a [Meal] is any record of the five fields. *)
Record Meal : Type := Build_Meal {
  id : Z;
  meal : string;
  cuisine : string;
  price : num;
  difficulty : string
}.

(** [x in xs] for a list of [str]. *)
Definition str_in (x : string) (xs : list string) : bool :=
  existsb (fun item => String.eqb item x) xs.

(** [Meal.__post_init__]. *)
Definition post_init (self : Meal) : exn + unit :=
  if lt (price self) (of_int 0) then
    inl (ValueError "Price must be a positive value.")
  else if negb (str_in (difficulty self) ["Easy"; "Medium"; "Hard"]%string) then
    inl (ValueError "Difficulty must be 'Easy', 'Medium', or 'Hard'.")
  else inr tt.

(** The call [Meal(id, meal, cuisine, price, difficulty)]: the generated
    [__init__] assigns the fields and runs [__post_init__]. *)
Definition new_Meal (id_ : Z) (meal_ cuisine_ : string) (price_ : num)
    (difficulty_ : string) : exn + Meal :=
  let self := Build_Meal id_ meal_ cuisine_ price_ difficulty_ in
  match post_init self with
  | inl e => inl e
  | inr _ => inr self
  end.

(** The generated [Meal.__eq__]: the tuples of fields are compared, element
    by element. *)
Definition Meal_eq (a b : Meal) : bool :=
  Z.eqb (id a) (id b)
  && String.eqb (meal a) (meal b)
  && String.eqb (cuisine a) (cuisine b)
  && is_or_eq (price a) (price b)
  && String.eqb (difficulty a) (difficulty b).

End Kitchen.

Arguments Meal num : clear implicits.

(** ** Built-ins *)

(** [d[key]] on a dict literal given as its items; [None] is [KeyError]. *)
Fixpoint dict_get {V : Type} (d : list (string * V)) (key : string) : option V :=
  match d with
  | [] => None
  | (k, v) :: d' => if String.eqb k key then Some v else dict_get d' key
  end.

(** [len(s)] as an [int]. *)
Definition len (s : string) : Z := Z.of_nat (String.length s).

(** [l.remove(x)]: drops the first item equal to [x]; [None] is
    [ValueError] (no such item). *)
Fixpoint list_remove {A : Type} (eq : A -> A -> bool) (x : A) (l : list A)
    : option (list A) :=
  match l with
  | [] => None
  | item :: l' =>
      if eq item x then Some l'
      else option_map (cons item) (list_remove eq x l')
  end.

(** ** Exceptions and state *)

(** Computations that read and write a state [S] and may raise: a raise
    keeps the state it was made in. *)
Definition M (S A : Type) : Type := S -> (exn + A) * S.

Definition ret {S A : Type} (a : A) : M S A := fun s => (inr a, s).

Definition raise {S A : Type} (e : exn) : M S A := fun s => (inl e, s).

Definition bind {S A B : Type} (m : M S A) (k : A -> M S B) : M S B :=
  fun s =>
    match m s with
    | (inl e, s') => (inl e, s')
    | (inr a, s') => k a s'
    end.

(** A pure call that may raise. *)
Definition lift {S A : Type} (r : exn + A) : M S A := fun s => (r, s).

Declare Scope py_scope.
Delimit Scope py_scope with py.

Notation "x <- m ;; k" := (bind m (fun x => k))
  (at level 61, m at next level, right associativity) : py_scope.
Notation "m ;; k" := (bind m (fun _ => k))
  (at level 61, right associativity) : py_scope.

(** ** battle_model.py *)

Section BattleModel.

Context {num : Type} `{PyNumber num}.

(** The collaborators whose code is outside the model: the database behind
    [update_meal_stats] and random.org behind [get_random].  [world] is
    their state; a call returns what the caller sees and the new state. *)
Variable world : Type.
Variable stats_updater : Z -> string -> world -> option exn * world.
Variable entropy_source : world -> (exn + num) * world.

(** [self.combatants], the calls made to [update_meal_stats] so far (what a
    mock of it records), and the outside world. *)
Record state : Type := State {
  combatants : list (Meal num);
  stats_calls : list (Z * string);
  outside : world
}.

Definition get_self_combatants : M state (list (Meal num)) :=
  fun s => (inr (combatants s), s).

Definition set_self_combatants (l : list (Meal num)) : M state unit :=
  fun s => (inr tt, State l (stats_calls s) (outside s)).

(** [update_meal_stats(meal_id, result)]: the call is recorded, then the
    collaborator answers ([Some e]: it raised [e]). *)
Definition update_meal_stats (meal_id : Z) (result : string) : M state unit :=
  fun s =>
    let (answer, w) := stats_updater meal_id result (outside s) in
    let s' := State (combatants s) (stats_calls s ++ [(meal_id, result)]) w in
    match answer with
    | Some e => (inl e, s')
    | None => (inr tt, s')
    end.

(** [get_random()]: a number, or the [RuntimeError] / [ValueError] of
    random_utils.py. *)
Definition get_random : M state num :=
  fun s =>
    let (answer, w) := entropy_source (outside s) in
    (answer, State (combatants s) (stats_calls s) w).

(** [BattleModel.get_battle_score].  The product is evaluated before the
    subscript, and it cannot raise; a missing key raises [KeyError]. *)
Definition get_battle_score (combatant : Meal num) : exn + num :=
  let difficulty_modifier := [("HIGH", 1); ("MED", 2); ("LOW", 3)]%string%Z in
  let product := times (price combatant) (of_int (len (cuisine combatant))) in
  match dict_get difficulty_modifier (difficulty combatant) with
  | None => inl (KeyError (difficulty combatant))
  | Some modifier => inr (minus product (of_int modifier))
  end.

(** [self.combatants.remove(loser)]. *)
Definition remove_combatant (loser : Meal num) : M state unit :=
  (cs <- get_self_combatants ;;
   match list_remove Meal_eq loser cs with
   | None => raise (ValueError "list.remove(x): x not in list")
   | Some cs' => set_self_combatants cs'
   end)%py.

(** [BattleModel.battle]. *)
Definition battle : M state string :=
  (cs <- get_self_combatants ;;
   if (Z.of_nat (List.length cs) <? 2)%Z then
     raise (ValueError "Two combatants must be prepped for a battle.")
   else
     match cs with
     | combatant_1 :: combatant_2 :: _ =>
         score_1 <- lift (get_battle_score combatant_1) ;;
         score_2 <- lift (get_battle_score combatant_2) ;;
         let delta := divide (absolute (minus score_1 score_2)) (of_int 100) in
         random_number <- get_random ;;
         let (winner, loser) :=
           if lt random_number delta
           then (combatant_1, combatant_2)
           else (combatant_2, combatant_1) in
         update_meal_stats (id winner) "win" ;;
         update_meal_stats (id loser) "loss" ;;
         remove_combatant loser ;;
         ret (meal winner)
     | _ => raise (IndexError "list index out of range")
     end)%py.

(** [BattleModel.clear_combatants]. *)
Definition clear_combatants : M state unit :=
  set_self_combatants [].

(** [BattleModel.get_combatants]. *)
Definition get_combatants : M state (list (Meal num)) :=
  get_self_combatants.

(** [BattleModel.prep_combatant]. *)
Definition prep_combatant (combatant_data : Meal num) : M state unit :=
  (cs <- get_self_combatants ;;
   if (2 <=? Z.of_nat (List.length cs))%Z then
     raise (ValueError "Combatant list is full, cannot add more combatants.")
   else
     set_self_combatants (cs ++ [combatant_data]))%py.

(** [BattleModel.__init__]: no combatant; nothing was reported yet. *)
Definition init (w : world) : state := State [] [] w.

(** What a caller can do with a [BattleModel], and the state each call
    leaves behind, whether it returned or raised. *)
Inductive call : Type :=
| Prep (combatant_data : Meal num)
| Battle
| Clear
| GetCombatants.

Definition perform (c : call) (s : state) : state :=
  match c with
  | Prep combatant_data => snd (prep_combatant combatant_data s)
  | Battle => snd (battle s)
  | Clear => snd (clear_combatants s)
  | GetCombatants => snd (get_combatants s)
  end.

Definition session (calls : list call) (s : state) : state :=
  fold_left (fun s' c => perform c s') calls s.

(** The outcome of a call of [battle] from [before] names [winner]: the
    first call it made to [update_meal_stats] reports a win for the
    winner's id, and a name it returns is the winner's. *)
Definition declares_winner (before : state)
    (outcome : (exn + string) * state) (winner : Meal num) : Prop :=
  (exists later,
     stats_calls (snd outcome) =
       stats_calls before ++ (id winner, "win"%string) :: later) /\
  (forall name, fst outcome = inr name -> name = meal winner).

End BattleModel.

(** A meal is constructed when some call [Meal(...)] returned it. *)
Definition constructed {num : Type} `{PyNumber num} (m : Meal num) : Prop :=
  exists i n c p d, new_Meal i n c p d = inr m.

(** ** Scripted collaborators *)

(** The collaborators as the tests patch them: each call takes the next
    scripted answer.  With no answer left, [update_meal_stats] returns
    and [get_random] raises. *)
Module Mock.

Section Scripted.

Context {num : Type}.

Record script : Type := Script {
  random_answers : list (exn + num);
  stats_answers : list (option exn)
}.

Definition mock_update_stats (meal_id : Z) (result : string) (w : script)
    : option exn * script :=
  match stats_answers w with
  | [] => (None, w)
  | a :: rest => (a, Script (random_answers w) rest)
  end.

Definition mock_get_random (w : script) : (exn + num) * script :=
  match random_answers w with
  | [] => (inl (RuntimeError "Request to random.org timed out."), w)
  | a :: rest => (a, Script rest (stats_answers w))
  end.

End Scripted.

Arguments script num : clear implicits.

End Mock.

(** ** Specification vocabulary *)

(** [high] scores exactly 2 more than [low]: both scores are computed and
    [score(high) - score(low) == 2] is true. *)
Definition scores_two_above {num : Type} `{PyNumber num}
    (high low : Meal num) : Prop :=
  exists sH sL,
    get_battle_score high = inr sH /\
    get_battle_score low = inr sL /\
    eq_op (minus sH sL) (of_int 2) = true.

(** ** The meals and mocks of the tests *)

Module Scenario.

Import Mock.

Open Scope string_scope.
Open Scope float_scope.

(** battle_model_tests.py: the two sample meals. *)
Definition sample_meal1 : Meal float := Build_Meal 1 "Pizza" "Italian" 12.99 "MED".
Definition sample_meal2 : Meal float := Build_Meal 2 "Burger" "American" 9.99 "LOW".
Definition sushi : Meal float := Build_Meal 3 "Sushi" "Japanese" 15.99 "HIGH".

(** A meal whose difficulty is in no table, as the test of the invalid
    difficulty makes one. *)
Definition invalid_meal : Meal float := Build_Meal 1 "Pizza" "Italian" 12.99 "INVALID".

(** Meals that [Meal(...)] returns. *)
Definition easy_meal : Meal float := Build_Meal 4 "Toast" "British" 2.5 "Easy".
Definition hard_meal : Meal float := Build_Meal 5 "Souffle" "French" 18 "Hard".

(** One dish under the two difficulties, at a small and at a large price. *)
Definition crepe (difficulty_ : string) : Meal float :=
  Build_Meal 6 "Crepe" "French" 0.03 difficulty_.
Definition caviar (difficulty_ : string) : Meal float :=
  Build_Meal 7 "Caviar" "Russian" 1e17 difficulty_.

(** A [BattleModel] holding [cs], nothing reported yet, [get_random]
    patched to return [draws] in turn and [update_meal_stats] to answer
    [answers] in turn. *)
Definition arena (cs : list (Meal float)) (draws : list float)
    (answers : list (option exn)) : state (script float) :=
  State cs [] (Script (map inr draws) answers).

Definition run_battle : M (state (script float)) string :=
  battle mock_update_stats mock_get_random.

End Scenario.

(** ** try / except / finally *)

(** [try: body finally: final]: [final] runs after [body] however [body]
    ended; when [final] raises, that exception is the outcome. *)
Definition try_finally {S A : Type} (body : M S A) (final : M S unit) : M S A :=
  fun s =>
    let (outcome, s1) := body s in
    match final s1 with
    | (inl e, s2) => (inl e, s2)
    | (inr _, s2) => (outcome, s2)
    end.

(** [try: body except sqlite3.DatabaseError as e: handler]. *)
Definition try_except_DatabaseError {S A : Type} (body : M S A)
    (handler : exn -> M S A) : M S A :=
  fun s =>
    match body s with
    | (inl (DatabaseError msg), s1) => handler (DatabaseError msg) s1
    | other => other
    end.

(** ** kitchen_model.py: the database functions *)

Section KitchenDB.

Context {num : Type} `{PyNumber num}.

(** A value bound to a [?] of a statement. *)
Inductive sql_value : Type :=
| SqlInteger (z : Z)
| SqlText (s : string)
| SqlReal (x : num).

(** A row of [SELECT id, meal, cuisine, price, difficulty], each column
    holding a value of the type the dataclass annotates. *)
Definition row : Type := (Z * string * string * num * string)%type.

(** The calls the functions make into sqlite3: [get_db_connection()],
    [connection.cursor()], [cursor.execute(sql, parameters)],
    [cursor.fetchone()], [connection.commit()], [connection.close()]. *)
Inductive db_call : Type :=
| Connect
| Cursor
| Execute (sql : string) (parameters : list sql_value)
| Fetchone
| Commit
| Close.

(** The database is outside the model: any call may raise ([Some e]), and
    [fetchone] answers a row or [None]. *)
Variable database : Type.
Variable db_answer : db_call -> database -> option exn * database.
Variable db_fetchone : database -> (exn + option row) * database.

(** The calls made so far, in order, and the database. *)
Record db_state : Type := DbState {
  db_calls : list db_call;
  db : database
}.

Definition db_do (c : db_call) : M db_state unit :=
  fun s =>
    let (answer, d) := db_answer c (db s) in
    let s' := DbState (db_calls s ++ [c]) d in
    match answer with
    | Some e => (inl e, s')
    | None => (inr tt, s')
    end.

Definition fetchone : M db_state (option row) :=
  fun s =>
    let (answer, d) := db_fetchone (db s) in
    (answer, DbState (db_calls s ++ [Fetchone]) d).

(** [fetch_meal_from_db].  [Meal( *result)] runs [__post_init__]; the
    [ValueError]s pass the [except] clause, which logs and re-raises. *)
Definition fetch_meal_from_db (meal_id : Z) : M db_state (Meal num) :=
  (db_do Connect ;;
   try_finally
     (try_except_DatabaseError
        (db_do Cursor ;;
         db_do (Execute
                  "SELECT id, meal, cuisine, price, difficulty FROM meals WHERE id = ?"
                  [SqlInteger meal_id]) ;;
         result <- fetchone ;;
         match result with
         | Some (id_, meal_, cuisine_, price_, difficulty_) =>
             lift (new_Meal id_ meal_ cuisine_ price_ difficulty_)
         | None => raise (ValueError "Meal with specified ID does not exist.")
         end)
        (fun e => raise e))
     (db_do Close))%py.

(** [add_meal_to_db]. *)
Definition add_meal_to_db (m : Meal num) : M db_state unit :=
  (db_do Connect ;;
   try_finally
     (try_except_DatabaseError
        (db_do Cursor ;;
         db_do (Execute
                  "INSERT INTO meals (id, meal, cuisine, price, difficulty) VALUES (?, ?, ?, ?, ?)"
                  [SqlInteger (id m); SqlText (meal m); SqlText (cuisine m);
                   SqlReal (price m); SqlText (difficulty m)]) ;;
         db_do Commit)
        (fun e => raise e))
     (db_do Close))%py.

(** The statement of [update_meal_in_db], a triple-quoted literal. *)
Definition update_statement : string :=
  "
            UPDATE meals
            SET meal = ?, cuisine = ?, price = ?, difficulty = ?
            WHERE id = ?
            ".

(** [update_meal_in_db]. *)
Definition update_meal_in_db (m : Meal num) : M db_state unit :=
  (db_do Connect ;;
   try_finally
     (try_except_DatabaseError
        (db_do Cursor ;;
         db_do (Execute update_statement
                  [SqlText (meal m); SqlText (cuisine m); SqlReal (price m);
                   SqlText (difficulty m); SqlInteger (id m)]) ;;
         db_do Commit)
        (fun e => raise e))
     (db_do Close))%py.

(** [delete_meal_from_db]. *)
Definition delete_meal_from_db (meal_id : Z) : M db_state unit :=
  (db_do Connect ;;
   try_finally
     (try_except_DatabaseError
        (db_do Cursor ;;
         db_do (Execute "DELETE FROM meals WHERE id = ?" [SqlInteger meal_id]) ;;
         db_do Commit)
        (fun e => raise e))
     (db_do Close))%py.

(** The calls a function made: those recorded after [before]. *)
Definition calls_since (before after : db_state) (new : list db_call) : Prop :=
  db_calls after = db_calls before ++ new.

(** Once the connection is obtained it is closed, once, and last; when it
    is not obtained nothing else is called. *)
Definition closes_connection (new : list db_call) : Prop :=
  new = [Connect] \/
  exists work, new = Connect :: work ++ [Close] /\ ~ In Close work.

End KitchenDB.

(** ** random_utils.py *)

Module RandomUtils.

Section Requests.

Context {num : Type}.

(** What [requests.get] raises: a [Timeout], or another
    [RequestException]; [str(e)] is the message. *)
Inductive requests_exception : Type :=
| Timeout (msg : string)
| RequestException (msg : string).

(** A response: the [HTTPError] that [raise_for_status()] raises on it, if
    any, and its [text]. *)
Record Response : Type := Build_Response {
  status_error : option string;
  text : string
}.

(** The network, and the built-ins [str.strip] and [float]. *)
Variable world : Type.
Variable requests_get : string -> Z -> world -> (requests_exception + Response) * world.
Variable strip : string -> string.
Variable float : string -> option num.

Definition url : string :=
  "https://www.random.org/integers/?num=1&min=1&max=100&col=1&base=10&format=plain&rnd=new".

(** [get_random], as a call on the outside world. *)
Definition get_random (w : world) : (exn + num) * world :=
  match requests_get url 5 w with
  | (inl (Timeout _), w') =>
      (inl (RuntimeError "Request to random.org timed out."), w')
  | (inl (RequestException e), w') =>
      (inl (RuntimeError ("Request to random.org failed: " ++ e)), w')
  | (inr response, w') =>
      match status_error response with
      | Some e =>
          (inl (RuntimeError ("Request to random.org failed: " ++ e)), w')
      | None =>
          let random_number_str := strip (text response) in
          match float random_number_str with
          | None =>
              (inl (ValueError ("Invalid response from random.org: "
                                ++ random_number_str)), w')
          | Some random_number => (inr random_number, w')
          end
      end
  end.

End Requests.

End RandomUtils.

(** ** Sessions, counted *)

Section Counting.

Context {num : Type}.

(** The number of [battle] calls among [calls]. *)
Fixpoint count_battles (calls : list (@call num)) : nat :=
  match calls with
  | [] => 0
  | Battle :: calls' => S (count_battles calls')
  | _ :: calls' => count_battles calls'
  end.

(** A difficulty that is a key of the penalty table. *)
Definition scorable_difficulty (d : string) : Prop :=
  d = "HIGH"%string \/ d = "MED"%string \/ d = "LOW"%string.

End Counting.

(** ** A scripted database and a network that is down *)

Module MockDB.

Import Mock.

(** Each call into the database takes the next scripted answer and
    returns when none is left; [fetchone] answers the stored row. *)
Record scripted_db : Type := ScriptedDb {
  db_answers : list (option exn);
  stored_row : option (row (num := float))
}.

Definition mock_db_answer (c : db_call (num := float)) (d : scripted_db)
    : option exn * scripted_db :=
  match db_answers d with
  | [] => (None, d)
  | a :: rest => (a, ScriptedDb rest (stored_row d))
  end.

Definition mock_fetchone (d : scripted_db)
    : (exn + option (row (num := float))) * scripted_db :=
  (inr (stored_row d), d).

(** [requests.get] when random.org does not answer in time. *)
Definition requests_get_timeout (url_ : string) (timeout : Z) (w : script float)
    : (RandomUtils.requests_exception + RandomUtils.Response) * script float :=
  (inl (RandomUtils.Timeout "Read timed out. (read timeout=5)"), w).

End MockDB.

(** ** The sample meals with exact prices *)

Module ScenarioExact.

Import Mock.

Open Scope string_scope.

Definition sample_meal1 : Meal Q := Build_Meal 1 "Pizza" "Italian" (1299 # 100) "MED".
Definition sample_meal2 : Meal Q := Build_Meal 2 "Burger" "American" (999 # 100) "LOW".

(** A [BattleModel] holding [cs] with [get_random] patched to return [draw]. *)
Definition arena (cs : list (Meal Q)) (draw : Q) : state (script Q) :=
  State cs [] (Script [inr draw] []).

End ScenarioExact.

(** * Properties *)

(** ** The comparison laws of the two number types *)

Lemma SFcompare_swap (a b : spec_float) :
  SFcompare b a = option_map CompOpp (SFcompare a b).
Proof.
  destruct a as [sa | sa | | sa ma ea], b as [sb | sb | | sb mb eb];
    simpl; try reflexivity;
    try (destruct sa; reflexivity);
    try (destruct sb; reflexivity);
    try (destruct sa, sb; reflexivity).
  destruct sa, sb; simpl; try reflexivity;
    rewrite (Z.compare_antisym ea eb);
    destruct (ea ?= eb)%Z; simpl; try reflexivity;
    rewrite (Pos.compare_cont_antisym ma mb Eq); simpl;
    try rewrite CompOpp_involutive; reflexivity.
Qed.

Lemma float_is_or_eq_refl (x : float) : Binary64.float_is_or_eq x x = true.
Proof.
  unfold Binary64.float_is_or_eq.
  replace (PrimFloat.Leibniz.eqb x x) with true; [reflexivity |].
  symmetry. apply FloatAxioms.Leibniz.eqb_spec. reflexivity.
Qed.

Lemma float_eqb_not_ltb (x y : float) :
  PrimFloat.eqb x y = true -> PrimFloat.ltb y x = false.
Proof.
  rewrite FloatAxioms.eqb_spec, FloatAxioms.ltb_spec.
  unfold SFeqb, SFltb.
  rewrite (SFcompare_swap (Prim2SF x) (Prim2SF y)).
  destruct (SFcompare (Prim2SF x) (Prim2SF y)) as [[ | | ] | ];
    simpl; congruence.
Qed.

Lemma float_leb_not_ltb (x y : float) :
  PrimFloat.leb x y = true -> PrimFloat.ltb y x = false.
Proof.
  rewrite FloatAxioms.leb_spec, FloatAxioms.ltb_spec.
  unfold SFleb, SFltb.
  rewrite (SFcompare_swap (Prim2SF x) (Prim2SF y)).
  destruct (SFcompare (Prim2SF x) (Prim2SF y)) as [[ | | ] | ];
    simpl; congruence.
Qed.

#[global] Instance float_PyNumberLaws : PyNumberLaws float := {
  is_or_eq_refl := float_is_or_eq_refl;
  eq_op_not_lt := float_eqb_not_ltb;
  le_not_lt := float_leb_not_ltb
}.

Lemma Q_is_or_eq_refl (x : Q) : Qeq_bool x x = true.
Proof. apply Qeq_bool_iff. reflexivity. Qed.

Lemma Q_eq_not_lt (x y : Q) : Qeq_bool x y = true -> Exact.Q_lt y x = false.
Proof.
  intros E. apply Qeq_bool_iff in E. unfold Exact.Q_lt.
  apply negb_false_iff, Qle_bool_iff. rewrite E. apply Qle_refl.
Qed.

Lemma Q_le_not_lt (x y : Q) : Qle_bool x y = true -> Exact.Q_lt y x = false.
Proof. intros L. unfold Exact.Q_lt. rewrite L. reflexivity. Qed.

#[global] Instance Q_PyNumberLaws : PyNumberLaws Q := {
  is_or_eq_refl := Q_is_or_eq_refl;
  eq_op_not_lt := Q_eq_not_lt;
  le_not_lt := Q_le_not_lt
}.

(** ** Scoring *)

Section Scoring.

Context {num : Type} `{PyNumber num}.

Open Scope string_scope.

(** C1.  For a combatant whose difficulty is HIGH, MED or LOW, the score is
    the price times the number of characters of the cuisine, minus 1, 2 or
    3 respectively. *)
Theorem get_battle_score_formula (m : Meal num) (penalty : Z) :
  (difficulty m = "HIGH" /\ penalty = 1%Z) \/
  (difficulty m = "MED" /\ penalty = 2%Z) \/
  (difficulty m = "LOW" /\ penalty = 3%Z) ->
  get_battle_score m =
    inr (minus (times (price m) (of_int (Z.of_nat (String.length (cuisine m)))))
               (of_int penalty)).
Proof.
  destruct m as [i n c p d]; simpl.
  intros [[-> ->] | [[-> ->] | [-> ->]]]; reflexivity.
Qed.

(** A difficulty outside the table is a missing key. *)
Lemma dict_get_unknown_difficulty (d : string) :
  d <> "HIGH" -> d <> "MED" -> d <> "LOW" ->
  dict_get [("HIGH", 1); ("MED", 2); ("LOW", 3)]%Z d = None.
Proof.
  intros H1 H2 H3. cbn [dict_get].
  rewrite (proj2 (String.eqb_neq "HIGH" d)) by congruence.
  rewrite (proj2 (String.eqb_neq "MED" d)) by congruence.
  rewrite (proj2 (String.eqb_neq "LOW" d)) by congruence.
  reflexivity.
Qed.

(** C7.  A combatant whose difficulty is none of HIGH, MED, LOW makes
    [get_battle_score] raise [KeyError] (the spec's UnknownDifficultyError),
    whatever its price and cuisine. *)
Theorem get_battle_score_unknown_difficulty (m : Meal num) :
  difficulty m <> "HIGH" -> difficulty m <> "MED" -> difficulty m <> "LOW" ->
  get_battle_score m = inl (KeyError (difficulty m)).
Proof.
  intros H1 H2 H3. unfold get_battle_score.
  rewrite (dict_get_unknown_difficulty H1 H2 H3). reflexivity.
Qed.

End Scoring.

(** ** Construction *)

Section Construction.

Context {num : Type} `{PyNumberLaws num}.

Open Scope string_scope.

Lemma str_in_recognized (d : string) :
  str_in d ["Easy"; "Medium"; "Hard"] = true <->
  d = "Easy" \/ d = "Medium" \/ d = "Hard".
Proof.
  unfold str_in. cbn [existsb]. rewrite !orb_true_iff, !String.eqb_eq.
  intuition congruence.
Qed.

Lemma str_in_unrecognized (d : string) :
  d <> "Easy" -> d <> "Medium" -> d <> "Hard" ->
  str_in d ["Easy"; "Medium"; "Hard"] = false.
Proof.
  intros H1 H2 H3.
  destruct (str_in d ["Easy"; "Medium"; "Hard"]) eqn:E; [| reflexivity].
  apply str_in_recognized in E. intuition congruence.
Qed.

(** C6.  Constructing a Meal with a negative price raises [ValueError] (the
    spec's InvalidAttributeError); so does constructing it with a
    difficulty other than Easy, Medium, Hard; with a price that is at
    least 0 and one of these difficulties the call returns the meal with
    the five fields as given. *)
Theorem new_Meal_validation (i : Z) (n c : string) (p : num) (d : string) :
  (lt p (of_int 0) = true ->
   new_Meal i n c p d = inl (ValueError "Price must be a positive value.")) /\
  (d <> "Easy" -> d <> "Medium" -> d <> "Hard" ->
   exists msg, new_Meal i n c p d = inl (ValueError msg)) /\
  (le (of_int 0) p = true -> d = "Easy" \/ d = "Medium" \/ d = "Hard" ->
   new_Meal i n c p d = inr (Build_Meal i n c p d)).
Proof.
  unfold new_Meal, post_init. cbn [price difficulty].
  split; [| split].
  - intros ->. reflexivity.
  - intros H1 H2 H3. rewrite (str_in_unrecognized H1 H2 H3).
    destruct (lt p (of_int 0)); eexists; reflexivity.
  - intros Hp Hd. rewrite (le_not_lt _ _ Hp).
    rewrite (proj2 (str_in_recognized d) Hd). reflexivity.
Qed.

(** A constructed meal carries one of the three labels of
    [__post_init__]. *)
Lemma constructed_difficulty (m : Meal num) :
  constructed m ->
  difficulty m = "Easy" \/ difficulty m = "Medium" \/ difficulty m = "Hard".
Proof.
  intros (i & n & c & p & d & E). unfold new_Meal, post_init in E.
  cbn [price difficulty] in E.
  destruct (lt p (of_int 0)); [discriminate |].
  destruct (str_in d ["Easy"; "Medium"; "Hard"]) eqn:Hd; [| discriminate].
  cbn in E. injection E as <-. cbn. apply str_in_recognized, Hd.
Qed.

Lemma constructed_not_scorable (m : Meal num) :
  constructed m -> get_battle_score m = inl (KeyError (difficulty m)).
Proof.
  intros Hm. unfold get_battle_score.
  rewrite dict_get_unknown_difficulty; [reflexivity | | |];
    destruct (constructed_difficulty Hm) as [E | [E | E]];
    rewrite E; discriminate.
Qed.

End Construction.

(** ** The arena *)

Section Arena.

Context {num : Type} `{PyNumberLaws num}.

Variable world : Type.
Variable stats_updater : Z -> string -> world -> option exn * world.
Variable entropy_source : world -> (exn + num) * world.

Local Notation "'battle''" := (battle stats_updater entropy_source).
Local Notation "'report'" := (update_meal_stats stats_updater).

Open Scope string_scope.

Lemma Meal_eq_refl (m : Meal num) : Meal_eq m m = true.
Proof.
  unfold Meal_eq.
  rewrite Z.eqb_refl, !String.eqb_refl, is_or_eq_refl. reflexivity.
Qed.

(** With at least two combatants, both scored, and a draw [r], [battle]
    is the two reports, the removal and the return. *)
Lemma battle_scored (s : state world) (c1 c2 : Meal num)
    (rest : list (Meal num)) (s1 s2 r : num) (w : world) :
  combatants s = c1 :: c2 :: rest ->
  get_battle_score c1 = inr s1 ->
  get_battle_score c2 = inr s2 ->
  entropy_source (outside s) = (inr r, w) ->
  battle' s =
    (let (winner, loser) :=
       if lt r (divide (absolute (minus s1 s2)) (of_int 100))
       then (c1, c2) else (c2, c1) in
     (report (id winner) "win" ;;
      report (id loser) "loss" ;;
      remove_combatant loser ;;
      ret (meal winner))%py)
    (State (combatants s) (stats_calls s) w).
Proof.
  intros Hc H1 H2 Hr.
  unfold battle, bind at 1, get_self_combatants. rewrite Hc.
  replace (Z.of_nat (List.length (c1 :: c2 :: rest)) <? 2)%Z with false
    by (symmetry; apply Z.ltb_ge; cbn [List.length]; lia).
  rewrite H1, H2.
  unfold bind at 1, lift. unfold bind at 1.
  unfold bind at 1, get_random. rewrite Hr, Hc.
  reflexivity.
Qed.

(** The guard of [battle]. *)
Lemma battle_guard (s : state world) :
  (Z.of_nat (List.length (combatants s)) <? 2)%Z = true ->
  battle' s =
    (inl (ValueError "Two combatants must be prepped for a battle."), s).
Proof.
  intros Hlen. unfold battle, bind, get_self_combatants.
  rewrite Hlen. reflexivity.
Qed.

(** C4.  With fewer than two combatants [battle] raises [ValueError] (the
    spec's InsufficientCombatantsError); the combatant list is unchanged
    and [update_meal_stats] is not called: the whole state is as before. *)
Theorem battle_insufficient_combatants (s : state world) :
  (List.length (combatants s) < 2)%nat ->
  battle' s =
    (inl (ValueError "Two combatants must be prepped for a battle."), s) /\
  combatants (snd (battle' s)) = combatants s /\
  stats_calls (snd (battle' s)) = stats_calls s.
Proof.
  intros Hlen.
  assert (Hg : (Z.of_nat (List.length (combatants s)) <? 2)%Z = true)
    by (apply Z.ltb_lt; lia).
  rewrite (battle_guard s Hg). repeat split.
Qed.

(** A raise while scoring or drawing ends [battle] there. *)
Lemma battle_score_1_raises (s : state world) (c1 c2 : Meal num)
    (rest : list (Meal num)) (e : exn) :
  combatants s = c1 :: c2 :: rest ->
  get_battle_score c1 = inl e ->
  battle' s = (inl e, s).
Proof.
  intros Hc H1.
  unfold battle, bind, get_self_combatants, lift. rewrite Hc.
  replace (Z.of_nat (List.length (c1 :: c2 :: rest)) <? 2)%Z with false
    by (symmetry; apply Z.ltb_ge; cbn [List.length]; lia).
  rewrite H1. reflexivity.
Qed.

Lemma battle_score_2_raises (s : state world) (c1 c2 : Meal num)
    (rest : list (Meal num)) (s1 : num) (e : exn) :
  combatants s = c1 :: c2 :: rest ->
  get_battle_score c1 = inr s1 ->
  get_battle_score c2 = inl e ->
  battle' s = (inl e, s).
Proof.
  intros Hc H1 H2.
  unfold battle, bind, get_self_combatants, lift. rewrite Hc.
  replace (Z.of_nat (List.length (c1 :: c2 :: rest)) <? 2)%Z with false
    by (symmetry; apply Z.ltb_ge; cbn [List.length]; lia).
  rewrite H1, H2. reflexivity.
Qed.

Lemma battle_draw_raises (s : state world) (c1 c2 : Meal num)
    (rest : list (Meal num)) (s1 s2 : num) (e : exn) (w : world) :
  combatants s = c1 :: c2 :: rest ->
  get_battle_score c1 = inr s1 ->
  get_battle_score c2 = inr s2 ->
  entropy_source (outside s) = (inl e, w) ->
  battle' s = (inl e, State (combatants s) (stats_calls s) w).
Proof.
  intros Hc H1 H2 Hr.
  unfold battle, bind, get_self_combatants, lift, get_random. rewrite Hc.
  replace (Z.of_nat (List.length (c1 :: c2 :: rest)) <? 2)%Z with false
    by (symmetry; apply Z.ltb_ge; cbn [List.length]; lia).
  rewrite H1, H2, Hr, ?Hc. reflexivity.
Qed.

(** The two reports, the removal and the return, by the answers of the
    collaborator. *)
Lemma settle_win_report_raises (cs : list (Meal num)) (calls : list (Z * string))
    (w w' : world) (winner loser : Meal num) (e : exn) :
  stats_updater (id winner) "win" w = (Some e, w') ->
  (report (id winner) "win" ;;
   report (id loser) "loss" ;;
   remove_combatant loser ;;
   ret (meal winner))%py (State cs calls w) =
  (inl e, State cs (calls ++ [(id winner, "win")]) w').
Proof.
  intros Hw. unfold bind at 1, update_meal_stats at 1.
  cbn [outside combatants stats_calls]. rewrite Hw. reflexivity.
Qed.

Lemma settle_loss_report_raises (cs : list (Meal num)) (calls : list (Z * string))
    (w w' w'' : world) (winner loser : Meal num) (e : exn) :
  stats_updater (id winner) "win" w = (None, w') ->
  stats_updater (id loser) "loss" w' = (Some e, w'') ->
  (report (id winner) "win" ;;
   report (id loser) "loss" ;;
   remove_combatant loser ;;
   ret (meal winner))%py (State cs calls w) =
  (inl e, State cs (calls ++ [(id winner, "win"); (id loser, "loss")]) w'').
Proof.
  intros Hw Hl. unfold bind at 1, update_meal_stats at 1.
  cbn [outside combatants stats_calls]. rewrite Hw.
  unfold bind at 1, update_meal_stats at 1.
  cbn [outside combatants stats_calls]. rewrite Hl.
  rewrite <- app_assoc. reflexivity.
Qed.

Lemma settle_reported (cs : list (Meal num)) (calls : list (Z * string))
    (w w' w'' : world) (winner loser : Meal num) :
  stats_updater (id winner) "win" w = (None, w') ->
  stats_updater (id loser) "loss" w' = (None, w'') ->
  (report (id winner) "win" ;;
   report (id loser) "loss" ;;
   remove_combatant loser ;;
   ret (meal winner))%py (State cs calls w) =
  let calls' := (calls ++ [(id winner, "win"); (id loser, "loss")])%list in
  match list_remove Meal_eq loser cs with
  | None =>
      (inl (ValueError "list.remove(x): x not in list"), State cs calls' w'')
  | Some cs' => (inr (meal winner), State cs' calls' w'')
  end.
Proof.
  intros Hw Hl. unfold bind at 1, update_meal_stats at 1.
  cbn [outside combatants stats_calls]. rewrite Hw.
  unfold bind at 1, update_meal_stats at 1.
  cbn [outside combatants stats_calls]. rewrite Hl.
  rewrite <- app_assoc. cbn [app].
  unfold remove_combatant, bind, get_self_combatants, set_self_combatants.
  cbn [combatants stats_calls outside].
  destruct (list_remove Meal_eq loser cs); reflexivity.
Qed.

(** [remove] on the two staged combatants. *)
Lemma list_remove_first (c1 c2 : Meal num) :
  list_remove Meal_eq c1 [c1; c2] = Some [c2].
Proof. cbn [list_remove]. rewrite Meal_eq_refl. reflexivity. Qed.

Lemma list_remove_second (c1 c2 : Meal num) :
  list_remove Meal_eq c2 [c1; c2] =
  Some [if Meal_eq c1 c2 then c2 else c1].
Proof.
  cbn [list_remove]. destruct (Meal_eq c1 c2); [reflexivity |].
  rewrite Meal_eq_refl. reflexivity.
Qed.

Lemma list_remove_length (A : Type) (eq : A -> A -> bool) (x : A)
    (l l' : list A) :
  list_remove eq x l = Some l' -> List.length l = S (List.length l').
Proof.
  revert l'. induction l as [| item l IH]; intros l' E; [discriminate |].
  cbn [list_remove] in E. destruct (eq item x).
  - injection E as <-. reflexivity.
  - destruct (list_remove eq x l) as [l0 |]; [| discriminate].
    injection E as <-. cbn [List.length]. f_equal. apply IH. reflexivity.
Qed.

(** C2.  With two staged combatants c1, c2, both scored, delta the
    absolute score difference divided by 100 and r the draw: if delta > r
    the battle names c1 the winner, otherwise it names c2; in particular
    when delta == r it names c2. *)
Theorem battle_decision_rule (s : state world) (c1 c2 : Meal num)
    (s1 s2 r delta : num) (w : world) :
  combatants s = [c1; c2] ->
  get_battle_score c1 = inr s1 ->
  get_battle_score c2 = inr s2 ->
  entropy_source (outside s) = (inr r, w) ->
  delta = divide (absolute (minus s1 s2)) (of_int 100) ->
  (lt r delta = true -> declares_winner s (battle' s) c1) /\
  (lt r delta = false -> declares_winner s (battle' s) c2) /\
  (eq_op delta r = true -> declares_winner s (battle' s) c2).
Proof.
  intros Hc H1 H2 Hr ->.
  assert (Hrule : forall winner loser,
            (if lt r (divide (absolute (minus s1 s2)) (of_int 100))
             then (c1, c2) else (c2, c1)) = (winner, loser) ->
            declares_winner s (battle' s) winner).
  { intros winner loser Hwl.
    rewrite (battle_scored _ Hc H1 H2 Hr), Hwl.
    destruct (stats_updater (id winner) "win" w) as [[e |] w'] eqn:Hw.
    - rewrite (settle_win_report_raises _ _ _ _ Hw). split.
      + exists []. reflexivity.
      + cbn [fst]. discriminate.
    - destruct (stats_updater (id loser) "loss" w') as [[e |] w''] eqn:Hl.
      + rewrite (settle_loss_report_raises _ _ _ _ Hw Hl). split.
        * exists [(id loser, "loss")]. reflexivity.
        * cbn [fst]. discriminate.
      + rewrite (settle_reported _ _ _ _ Hw Hl). cbv zeta.
        destruct (list_remove Meal_eq loser (combatants s)); split;
          cbn [fst snd stats_calls];
          try (exists [(id loser, "loss")]; reflexivity);
          congruence. }
  split; [| split].
  - intros Hlt. apply (Hrule c1 c2). rewrite Hlt. reflexivity.
  - intros Hlt. apply (Hrule c2 c1). rewrite Hlt. reflexivity.
  - intros Heq. apply (Hrule c2 c1).
    rewrite (eq_op_not_lt _ _ Heq). reflexivity.
Qed.

(** C3.  When [battle] returns from a state with two staged combatants,
    one of them is the winner and the other the loser; the combatant list
    has exactly one item, equal to the winner; [update_meal_stats] was
    called exactly twice, with the winner's id and win, then with the
    loser's id and loss; the returned value is the winner's name. *)
Theorem battle_success (s s' : state world) (c1 c2 : Meal num)
    (name : string) :
  combatants s = [c1; c2] ->
  battle' s = (inr name, s') ->
  exists winner loser remaining,
    ((winner = c1 /\ loser = c2) \/ (winner = c2 /\ loser = c1)) /\
    combatants s' = [remaining] /\
    Meal_eq winner remaining = true /\
    (remaining = winner \/ Meal_eq c1 c2 = true) /\
    stats_calls s' =
      (stats_calls s ++ [(id winner, "win"); (id loser, "loss")])%list /\
    name = meal winner.
Proof.
  intros Hc Hb.
  destruct (get_battle_score c1) as [e1 | s1] eqn:H1;
    [rewrite (battle_score_1_raises _ Hc H1) in Hb; discriminate |].
  destruct (get_battle_score c2) as [e2 | s2] eqn:H2;
    [rewrite (battle_score_2_raises _ Hc H1 H2) in Hb; discriminate |].
  destruct (entropy_source (outside s)) as [[e | r] w] eqn:Hr;
    [rewrite (battle_draw_raises _ Hc H1 H2 Hr) in Hb; discriminate |].
  rewrite (battle_scored _ Hc H1 H2 Hr) in Hb.
  destruct (lt r (divide (absolute (minus s1 s2)) (of_int 100)));
    cbv iota beta in Hb.
  - (* combatant_1 wins *)
    destruct (stats_updater (id c1) "win" w) as [[e |] w'] eqn:Hw;
      [rewrite (settle_win_report_raises _ _ _ _ Hw) in Hb; discriminate |].
    destruct (stats_updater (id c2) "loss" w') as [[e |] w''] eqn:Hl;
      [rewrite (settle_loss_report_raises _ _ _ _ Hw Hl) in Hb; discriminate |].
    rewrite (settle_reported _ _ _ _ Hw Hl), Hc, list_remove_second in Hb.
    cbv zeta in Hb. injection Hb as <- <-.
    exists c1, c2, (if Meal_eq c1 c2 then c2 else c1).
    cbn [combatants stats_calls].
    destruct (Meal_eq c1 c2) eqn:E; rewrite ?Meal_eq_refl; auto 10.
  - (* combatant_2 wins *)
    destruct (stats_updater (id c2) "win" w) as [[e |] w'] eqn:Hw;
      [rewrite (settle_win_report_raises _ _ _ _ Hw) in Hb; discriminate |].
    destruct (stats_updater (id c1) "loss" w') as [[e |] w''] eqn:Hl;
      [rewrite (settle_loss_report_raises _ _ _ _ Hw Hl) in Hb; discriminate |].
    rewrite (settle_reported _ _ _ _ Hw Hl), Hc, list_remove_first in Hb.
    cbv zeta in Hb. injection Hb as <- <-.
    exists c2, c1, c2.
    cbn [combatants stats_calls]. rewrite Meal_eq_refl. auto 10.
Qed.

(** C10.  The loser is removed only after both reports: when the report
    of the win returns and the report of the loss raises, [battle] raises
    the same exception, both calls are on record, and the combatant list
    still holds both combatants in insertion order. *)
Theorem battle_loss_report_raises (s : state world) (c1 c2 : Meal num)
    (s1 s2 r : num) (w w' w'' : world) (winner loser : Meal num) (e : exn) :
  combatants s = [c1; c2] ->
  get_battle_score c1 = inr s1 ->
  get_battle_score c2 = inr s2 ->
  entropy_source (outside s) = (inr r, w) ->
  (if lt r (divide (absolute (minus s1 s2)) (of_int 100))
   then (c1, c2) else (c2, c1)) = (winner, loser) ->
  stats_updater (id winner) "win" w = (None, w') ->
  stats_updater (id loser) "loss" w' = (Some e, w'') ->
  battle' s =
    (inl e,
     State [c1; c2]
       (stats_calls s ++ [(id winner, "win"); (id loser, "loss")]) w'').
Proof.
  intros Hc H1 H2 Hr Hwl Hw Hl.
  rewrite (battle_scored _ Hc H1 H2 Hr), Hwl.
  rewrite (settle_loss_report_raises _ _ _ _ Hw Hl), Hc. reflexivity.
Qed.

(** [battle] never lengthens the combatant list. *)
Lemma battle_combatants_length (s : state world) :
  (List.length (combatants (snd (battle' s))) <= List.length (combatants s))%nat.
Proof.
  destruct (combatants s) as [| c1 [| c2 rest]] eqn:Hc.
  - rewrite battle_guard by (rewrite Hc; reflexivity).
    cbn [snd]. rewrite Hc. reflexivity.
  - rewrite battle_guard by (rewrite Hc; reflexivity).
    cbn [snd]. rewrite Hc. reflexivity.
  - destruct (get_battle_score c1) as [e1 | s1] eqn:H1;
      [rewrite (battle_score_1_raises _ Hc H1); cbn [snd]; rewrite Hc;
       reflexivity |].
    destruct (get_battle_score c2) as [e2 | s2] eqn:H2;
      [rewrite (battle_score_2_raises _ Hc H1 H2); cbn [snd]; rewrite Hc;
       reflexivity |].
    destruct (entropy_source (outside s)) as [[e | r] w] eqn:Hr;
      [rewrite (battle_draw_raises _ Hc H1 H2 Hr); cbn [snd combatants];
       rewrite Hc; reflexivity |].
    rewrite (battle_scored _ Hc H1 H2 Hr).
    assert (Hsettle : forall winner loser : Meal num,
              (List.length
                 (combatants
                    (snd ((report (id winner) "win" ;;
                           report (id loser) "loss" ;;
                           remove_combatant loser ;;
                           ret (meal winner))%py
                            (State (combatants s) (stats_calls s) w))))
               <= List.length (combatants s))%nat).
    { intros winner loser.
      destruct (stats_updater (id winner) "win" w) as [[e |] w'] eqn:Hw;
        [rewrite (settle_win_report_raises _ _ _ _ Hw); reflexivity |].
      destruct (stats_updater (id loser) "loss" w') as [[e |] w''] eqn:Hl;
        [rewrite (settle_loss_report_raises _ _ _ _ Hw Hl); reflexivity |].
      rewrite (settle_reported _ _ _ _ Hw Hl). cbv zeta.
      destruct (list_remove Meal_eq loser (combatants s)) as [cs' |] eqn:Hrm;
        cbn [snd combatants]; [| reflexivity].
      rewrite (list_remove_length _ _ _ Hrm). lia. }
    rewrite <- Hc.
    destruct (lt r (divide (absolute (minus s1 s2)) (of_int 100)));
      apply Hsettle.
Qed.

(** Every call keeps a list of at most two combatants so. *)
Lemma perform_keeps_two (c : call) (s : state world) :
  (List.length (combatants s) <= 2)%nat ->
  (List.length (combatants (perform stats_updater entropy_source c s)) <= 2)%nat.
Proof.
  intros Hlen. destruct c as [m | | |]; cbn [perform].
  - unfold prep_combatant, bind, get_self_combatants, set_self_combatants.
    destruct (Z.leb_spec 2 (Z.of_nat (List.length (combatants s))));
      cbn [snd combatants]; [exact Hlen |].
    rewrite length_app. cbn [List.length]. lia.
  - pose proof (battle_combatants_length s). lia.
  - cbn. lia.
  - exact Hlen.
Qed.

(** C5.  The combatant list never exceeds two items: [prep_combatant] on a
    list of two raises [ValueError] (the spec's CapacityError) and leaves
    the state as it was; each of [prep_combatant], [battle],
    [clear_combatants] (and [get_combatants]) keeps the length at most 2;
    so whatever is called on a new [BattleModel], at most two combatants
    are staged. *)
Theorem combatants_at_most_two :
  (forall (s : state world) (m : Meal num),
     (2 <= List.length (combatants s))%nat ->
     prep_combatant m s =
       (inl (ValueError "Combatant list is full, cannot add more combatants."),
        s)) /\
  (forall (c : call) (s : state world),
     (List.length (combatants s) <= 2)%nat ->
     (List.length (combatants (perform stats_updater entropy_source c s)) <= 2)%nat) /\
  (forall (calls : list call) (w : world),
     (List.length
        (combatants (session stats_updater entropy_source calls (init w))) <= 2)%nat).
Proof.
  split; [| split].
  - intros s m Hlen.
    unfold prep_combatant, bind, get_self_combatants.
    replace (2 <=? Z.of_nat (List.length (combatants s)))%Z with true
      by (symmetry; apply Z.leb_le; lia).
    reflexivity.
  - exact perform_keeps_two.
  - intros calls w.
    assert (Hgen : forall s : state world,
              (List.length (combatants s) <= 2)%nat ->
              (List.length
                 (combatants (session stats_updater entropy_source calls s)) <= 2)%nat).
    { induction calls as [| c calls IH]; intros s Hs; [exact Hs |].
      cbn [session fold_left]. apply IH, perform_keeps_two, Hs. }
    apply Hgen. cbn. lia.
Qed.

(** C8.  A constructed meal has difficulty Easy, Medium or Hard, none of
    which is a key of the penalty table: [get_battle_score] raises
    [KeyError] on every constructed meal, and [battle] on two constructed
    combatants raises it while scoring the first, the state (combatant
    list, recorded calls, outside world) being as before. *)
Theorem constructed_meals_never_score :
  (forall m : Meal num,
     constructed m ->
     (difficulty m = "Easy" \/ difficulty m = "Medium" \/ difficulty m = "Hard") /\
     get_battle_score m = inl (KeyError (difficulty m))) /\
  (forall (s : state world) (m1 m2 : Meal num),
     constructed m1 -> constructed m2 ->
     combatants s = [m1; m2] ->
     battle' s = (inl (KeyError (difficulty m1)), s)).
Proof.
  split.
  - intros m Hm. split.
    + apply constructed_difficulty, Hm.
    + apply constructed_not_scorable, Hm.
  - intros s m1 m2 Hm1 _ Hc.
    apply (battle_score_1_raises _ Hc), constructed_not_scorable, Hm1.
Qed.

End Arena.

(** ** HIGH against LOW *)

Section HighLow.

Import Scenario.

Open Scope string_scope.

(** C9, as stated, fails on [float] prices: each subtraction rounds to
    binary64.  At price 0.03 and a six-character cuisine the scores are
    -0.8200000000000001 and -2.82 and their difference is
    1.9999999999999998; at price 1e17 the two scores are the same number,
    so HIGH does not exceed LOW at all. *)
Lemma scores_two_above_float_counterexample :
  ~ scores_two_above (crepe "HIGH") (crepe "LOW") /\
  ~ scores_two_above (caviar "HIGH") (caviar "LOW") /\
  get_battle_score (caviar "HIGH") = get_battle_score (caviar "LOW").
Proof.
  split; [| split].
  - intros (sH & sL & EH & EL & E).
    injection EH as <-. injection EL as <-.
    vm_compute in E. discriminate.
  - intros (sH & sL & EH & EL & E).
    injection EH as <-. injection EL as <-.
    vm_compute in E. discriminate.
  - vm_compute. reflexivity.
Qed.

(** On the prices of the tests no subtraction rounds away the gap. *)
Lemma scores_two_above_sushi :
  scores_two_above sushi (Build_Meal 3 "Sushi" "Japanese" 15.99%float "LOW").
Proof. eexists. eexists. repeat split. Qed.

(** C9, amended.  Under HIGH and under LOW the score is the same product,
    price times length of cuisine, minus 1 and minus 3, whatever the
    number type; with the price held exactly (an [int] or a [Fraction],
    the spec's decimal), whatever the price and the cuisine, the score
    under HIGH is exactly 2 above the score under LOW. *)
Theorem scores_two_above_exact :
  (forall (num : Type) (N : PyNumber num) (i j : Z) (n n' c : string) (p : num),
     get_battle_score (Build_Meal i n c p "HIGH") =
       inr (minus (times p (of_int (len c))) (of_int 1)) /\
     get_battle_score (Build_Meal j n' c p "LOW") =
       inr (minus (times p (of_int (len c))) (of_int 3))) /\
  (forall (i j : Z) (n n' c : string) (p : Q),
     scores_two_above (Build_Meal i n c p "HIGH") (Build_Meal j n' c p "LOW")).
Proof.
  split.
  - intros. split; reflexivity.
  - intros. unfold scores_two_above.
    eexists. eexists. split; [reflexivity |]. split; [reflexivity |].
    unfold eq_op, minus, times, of_int, Exact.Q_PyNumber.
    cbn [price cuisine].
    apply Qeq_bool_iff.
    change (inject_Z 1) with 1%Q. change (inject_Z 3) with 3%Q.
    change (inject_Z 2) with 2%Q. ring.
Qed.

End HighLow.

(** ** The properties on the meals of the tests *)

Section Instances.

Import Mock Scenario.

Open Scope string_scope.

(** Pizza, Italian, 12.99, MED scores 12.99 * 7 - 2. *)
Lemma get_battle_score_formula_witness :
  get_battle_score sample_meal1 = inr (12.99 * 7 - 2)%float.
Proof.
  assert (Hmed : (difficulty sample_meal1 = "HIGH" /\ 2 = 1)%Z \/
                 (difficulty sample_meal1 = "MED" /\ 2 = 2)%Z \/
                 (difficulty sample_meal1 = "LOW" /\ 2 = 3)%Z)
    by (right; left; split; reflexivity).
  exact (get_battle_score_formula sample_meal1 Hmed).
Defined.

Lemma get_battle_score_unknown_difficulty_witness :
  get_battle_score invalid_meal = inl (KeyError "INVALID").
Proof.
  apply (get_battle_score_unknown_difficulty invalid_meal); discriminate.
Defined.

Lemma new_Meal_validation_witness :
  new_Meal 1 "Pizza" "Italian" (-1)%float "Easy" =
    inl (ValueError "Price must be a positive value.") /\
  (exists msg, new_Meal 1 "Pizza" "Italian" 12.99%float "MED" =
                 inl (ValueError msg)) /\
  new_Meal 4 "Toast" "British" 2.5%float "Easy" = inr easy_meal.
Proof.
  split; [| split].
  - apply (proj1 (new_Meal_validation 1 "Pizza" "Italian" (-1)%float "Easy")).
    reflexivity.
  - apply (proj1 (proj2
             (new_Meal_validation 1 "Pizza" "Italian" 12.99%float "MED")));
      discriminate.
  - apply (proj2 (proj2
             (new_Meal_validation 4 "Toast" "British" 2.5%float "Easy"))).
    + reflexivity.
    + left. reflexivity.
Defined.

(** One combatant staged: the battle raises and nothing moves. *)
Lemma battle_insufficient_combatants_witness :
  run_battle (arena [sample_meal1] [0.5%float] []) =
    (inl (ValueError "Two combatants must be prepped for a battle."),
     arena [sample_meal1] [0.5%float] []) /\
  combatants (snd (run_battle (arena [sample_meal1] [0.5%float] []))) =
    [sample_meal1] /\
  stats_calls (snd (run_battle (arena [sample_meal1] [0.5%float] []))) = [].
Proof.
  apply (battle_insufficient_combatants mock_update_stats mock_get_random
           (arena [sample_meal1] [0.5%float] [])).
  cbn. lia.
Defined.

(** The scenario of the spec: Pizza scores 88.93 and Burger 76.92, so delta
    is 0.1201; the draw 0.05 names Pizza, the draw 0.5 names Burger, and
    so does a draw equal to delta. *)
Lemma battle_decision_rule_witness :
  declares_winner
    (arena [sample_meal1; sample_meal2] [0.05%float] [])
    (run_battle (arena [sample_meal1; sample_meal2] [0.05%float] []))
    sample_meal1 /\
  declares_winner
    (arena [sample_meal1; sample_meal2] [0.5%float] [])
    (run_battle (arena [sample_meal1; sample_meal2] [0.5%float] []))
    sample_meal2 /\
  declares_winner
    (arena [sample_meal1; sample_meal2]
       [(abs (12.99 * 7 - 2 - (9.99 * 8 - 3)) / 100)%float] [])
    (run_battle
       (arena [sample_meal1; sample_meal2]
          [(abs (12.99 * 7 - 2 - (9.99 * 8 - 3)) / 100)%float] []))
    sample_meal2.
Proof.
  split; [| split].
  - refine (proj1
      (@battle_decision_rule float _ _ _ mock_update_stats mock_get_random
         (arena [sample_meal1; sample_meal2] [0.05%float] [])
         sample_meal1 sample_meal2
         (12.99 * 7 - 2)%float (9.99 * 8 - 3)%float 0.05%float
         (abs (12.99 * 7 - 2 - (9.99 * 8 - 3)) / 100)%float
         (Script [] [])
         eq_refl eq_refl eq_refl eq_refl eq_refl) _).
    reflexivity.
  - refine (proj1 (proj2
      (@battle_decision_rule float _ _ _ mock_update_stats mock_get_random
         (arena [sample_meal1; sample_meal2] [0.5%float] [])
         sample_meal1 sample_meal2
         (12.99 * 7 - 2)%float (9.99 * 8 - 3)%float 0.5%float
         (abs (12.99 * 7 - 2 - (9.99 * 8 - 3)) / 100)%float
         (Script [] [])
         eq_refl eq_refl eq_refl eq_refl eq_refl)) _).
    reflexivity.
  - refine (proj2 (proj2
      (@battle_decision_rule float _ _ _ mock_update_stats mock_get_random
         (arena [sample_meal1; sample_meal2]
            [(abs (12.99 * 7 - 2 - (9.99 * 8 - 3)) / 100)%float] [])
         sample_meal1 sample_meal2
         (12.99 * 7 - 2)%float (9.99 * 8 - 3)%float
         (abs (12.99 * 7 - 2 - (9.99 * 8 - 3)) / 100)%float
         (abs (12.99 * 7 - 2 - (9.99 * 8 - 3)) / 100)%float
         (Script [] [])
         eq_refl eq_refl eq_refl eq_refl eq_refl)) _).
    reflexivity.
Defined.

(** The test of the battle: draw 0.5, both reports return; Burger wins,
    stays alone in the list, and the two calls are win for 2, loss for 1. *)
Lemma battle_success_witness :
  exists winner loser remaining : Meal float,
    ((winner = sample_meal1 /\ loser = sample_meal2) \/
     (winner = sample_meal2 /\ loser = sample_meal1)) /\
    [sample_meal2] = [remaining] /\
    Meal_eq winner remaining = true /\
    (remaining = winner \/ Meal_eq sample_meal1 sample_meal2 = true) /\
    [(2%Z, "win"); (1%Z, "loss")] =
      ([] ++ [(id winner, "win"); (id loser, "loss")])%list /\
    "Burger" = meal winner.
Proof.
  apply (@battle_success float _ _ _ mock_update_stats mock_get_random
           (arena [sample_meal1; sample_meal2] [0.5%float] [])
           (State [sample_meal2] [(2%Z, "win"); (1%Z, "loss")] (Script [] []))
           sample_meal1 sample_meal2 "Burger");
    reflexivity.
Defined.

(** The same battle with the report of the loss raising: both meals stay
    staged, in order, and both calls are on record. *)
Lemma battle_loss_report_raises_witness :
  run_battle
    (arena [sample_meal1; sample_meal2] [0.5%float]
       [None; Some (DatabaseError "database is locked")]) =
  (inl (DatabaseError "database is locked"),
   State [sample_meal1; sample_meal2]
     ([] ++ [(id sample_meal2, "win"); (id sample_meal1, "loss")])
     (Script [] [])).
Proof.
  apply (@battle_loss_report_raises float _ _ mock_update_stats mock_get_random
           (arena [sample_meal1; sample_meal2] [0.5%float]
              [None; Some (DatabaseError "database is locked")])
           sample_meal1 sample_meal2
           (12.99 * 7 - 2)%float (9.99 * 8 - 3)%float 0.5%float
           (Script [] [None; Some (DatabaseError "database is locked")])
           (Script [] [Some (DatabaseError "database is locked")])
           (Script [] [])
           sample_meal2 sample_meal1 (DatabaseError "database is locked"));
    reflexivity.
Defined.

(** The test of the limit: a third combatant is refused; and a session
    that stages three meals, battles and clears never holds more than
    two. *)
Lemma combatants_at_most_two_witness :
  prep_combatant sushi (arena [sample_meal1; sample_meal2] [] []) =
    (inl (ValueError "Combatant list is full, cannot add more combatants."),
     arena [sample_meal1; sample_meal2] [] []) /\
  (List.length
     (combatants
        (perform mock_update_stats mock_get_random Battle
           (arena [sample_meal1; sample_meal2] [0.5%float] []))) <= 2)%nat /\
  (List.length
     (combatants
        (session mock_update_stats mock_get_random
           [Prep sample_meal1; Prep sample_meal2; Prep sushi; Battle; Clear]
           (init (Script [inr 0.5%float] [])))) <= 2)%nat.
Proof.
  split; [| split].
  - apply (proj1 (@combatants_at_most_two float _ _
                    mock_update_stats mock_get_random)).
    cbn. lia.
  - apply (proj1 (proj2 (@combatants_at_most_two float _ _
                           mock_update_stats mock_get_random))).
    cbn. lia.
  - apply (proj2 (proj2 (@combatants_at_most_two float _ _
                           mock_update_stats mock_get_random))).
Defined.

Lemma easy_meal_constructed : constructed easy_meal.
Proof. exists 4%Z, "Toast", "British", 2.5%float, "Easy". reflexivity. Qed.

Lemma hard_meal_constructed : constructed hard_meal.
Proof. exists 5%Z, "Souffle", "French", 18%float, "Hard". reflexivity. Qed.

(** Two meals as [Meal(...)] returns them: neither scores, and their battle
    raises [KeyError] with nothing reported and nothing removed. *)
Lemma constructed_meals_never_score_witness :
  ((difficulty easy_meal = "Easy" \/ difficulty easy_meal = "Medium" \/
    difficulty easy_meal = "Hard") /\
   get_battle_score easy_meal = inl (KeyError "Easy")) /\
  run_battle (arena [easy_meal; hard_meal] [0.5%float] []) =
    (inl (KeyError "Easy"), arena [easy_meal; hard_meal] [0.5%float] []).
Proof.
  split.
  - apply (proj1 (@constructed_meals_never_score float _ _
                    mock_update_stats mock_get_random)).
    exact easy_meal_constructed.
  - apply (proj2 (@constructed_meals_never_score float _ _
                    mock_update_stats mock_get_random)
             (arena [easy_meal; hard_meal] [0.5%float] [])
             easy_meal hard_meal).
    + exact easy_meal_constructed.
    + exact hard_meal_constructed.
    + reflexivity.
Defined.

End Instances.

(** * Further properties *)

(** ** The arena, call by call *)

Section ArenaCalls.

Context {num : Type} `{PyNumberLaws num}.

Variable world : Type.
Variable stats_updater : Z -> string -> world -> option exn * world.
Variable entropy_source : world -> (exn + num) * world.

Local Notation "'battle''" := (battle stats_updater entropy_source).
Local Notation "'report'" := (update_meal_stats stats_updater).
Local Notation "'session''" := (session stats_updater entropy_source).
Local Notation "'perform''" := (perform stats_updater entropy_source).

Open Scope string_scope.

(** [remove] finds the loser among the first two items. *)
Lemma list_remove_head (c1 : Meal num) (l : list (Meal num)) :
  list_remove Meal_eq c1 (c1 :: l) = Some l.
Proof. cbn [list_remove]. rewrite Meal_eq_refl. reflexivity. Qed.

Lemma list_remove_next (c1 c2 : Meal num) (l : list (Meal num)) :
  list_remove Meal_eq c2 (c1 :: c2 :: l) =
  Some ((if Meal_eq c1 c2 then c2 else c1) :: l).
Proof.
  cbn [list_remove]. destruct (Meal_eq c1 c2); [reflexivity |].
  rewrite Meal_eq_refl. reflexivity.
Qed.

(** What is removed was there, and nothing else appears. *)
Lemma list_remove_In (A : Type) (eq : A -> A -> bool) (x : A)
    (l l' : list A) (a : A) :
  list_remove eq x l = Some l' -> In a l' -> In a l.
Proof.
  revert l'. induction l as [| item l IH]; intros l' E Ha; [discriminate |].
  cbn [list_remove] in E. destruct (eq item x).
  - injection E as <-. right. exact Ha.
  - destruct (list_remove eq x l) as [l0 |]; [| discriminate].
    injection E as <-. destruct Ha as [<- | Ha]; [left; reflexivity |].
    right. apply (IH l0); [reflexivity | exact Ha].
Qed.

(** Equal meals bear the same name. *)
Lemma Meal_eq_meal (a b : Meal num) : Meal_eq a b = true -> meal a = meal b.
Proof.
  unfold Meal_eq. rewrite !andb_true_iff.
  intros [[[[_ Hm] _] _] _]. apply String.eqb_eq, Hm.
Qed.

(** A returning battle, whatever stands behind the first two combatants. *)
Lemma battle_returns_inv (s s' : state world) (c1 c2 : Meal num)
    (rest : list (Meal num)) (name : string) :
  combatants s = c1 :: c2 :: rest ->
  battle' s = (inr name, s') ->
  exists winner loser remaining,
    ((winner = c1 /\ loser = c2) \/ (winner = c2 /\ loser = c1)) /\
    combatants s' = remaining :: rest /\
    Meal_eq winner remaining = true /\
    (remaining = c1 \/ remaining = c2) /\
    stats_calls s' =
      (stats_calls s ++ [(id winner, "win"); (id loser, "loss")])%list /\
    name = meal winner.
Proof.
  intros Hc Hb.
  destruct (get_battle_score c1) as [e1 | s1] eqn:H1;
    [rewrite (battle_score_1_raises stats_updater entropy_source s Hc H1) in Hb; discriminate |].
  destruct (get_battle_score c2) as [e2 | s2] eqn:H2;
    [rewrite (battle_score_2_raises stats_updater entropy_source s Hc H1 H2) in Hb; discriminate |].
  destruct (entropy_source (outside s)) as [[e | r] w] eqn:Hr;
    [rewrite (battle_draw_raises stats_updater entropy_source s Hc H1 H2 Hr) in Hb; discriminate |].
  rewrite (battle_scored stats_updater entropy_source s Hc H1 H2 Hr) in Hb.
  destruct (lt r (divide (absolute (minus s1 s2)) (of_int 100)));
    cbv iota beta in Hb.
  - destruct (stats_updater (id c1) "win" w) as [[e |] w'] eqn:Hw;
      [rewrite (settle_win_report_raises stats_updater _ _ _ _ _ Hw) in Hb; discriminate |].
    destruct (stats_updater (id c2) "loss" w') as [[e |] w''] eqn:Hl;
      [rewrite (settle_loss_report_raises stats_updater _ _ _ _ _ Hw Hl) in Hb;
       discriminate |].
    rewrite (settle_reported stats_updater _ _ _ _ _ Hw Hl), Hc, list_remove_next in Hb.
    cbv zeta in Hb. injection Hb as <- <-.
    exists c1, c2, (if Meal_eq c1 c2 then c2 else c1).
    cbn [combatants stats_calls].
    destruct (Meal_eq c1 c2) eqn:E; rewrite ?Meal_eq_refl; auto 10.
  - destruct (stats_updater (id c2) "win" w) as [[e |] w'] eqn:Hw;
      [rewrite (settle_win_report_raises stats_updater _ _ _ _ _ Hw) in Hb; discriminate |].
    destruct (stats_updater (id c1) "loss" w') as [[e |] w''] eqn:Hl;
      [rewrite (settle_loss_report_raises stats_updater _ _ _ _ _ Hw Hl) in Hb;
       discriminate |].
    rewrite (settle_reported stats_updater _ _ _ _ _ Hw Hl), Hc, list_remove_head in Hb.
    cbv zeta in Hb. injection Hb as <- <-.
    exists c2, c1, c2.
    cbn [combatants stats_calls]. rewrite Meal_eq_refl. auto 10.
Qed.

(** Every way a call of [battle] can end. *)
Lemma battle_cases (s : state world) :
  battle' s =
    (inl (ValueError "Two combatants must be prepped for a battle."), s) \/
  exists c1 c2 rest,
    combatants s = c1 :: c2 :: rest /\
    ((exists e, battle' s = (inl e, s)) \/
     (exists e w,
        battle' s = (inl e, State (combatants s) (stats_calls s) w)) \/
     exists winner loser,
       ((winner = c1 /\ loser = c2) \/ (winner = c2 /\ loser = c1)) /\
       ((exists e w,
           battle' s =
             (inl e,
              State (combatants s)
                (stats_calls s ++ [(id winner, "win")]) w)) \/
        (exists e w,
           battle' s =
             (inl e,
              State (combatants s)
                (stats_calls s ++ [(id winner, "win"); (id loser, "loss")])
                w)) \/
        (exists cs' w,
           list_remove Meal_eq loser (combatants s) = Some cs' /\
           battle' s =
             (inr (meal winner),
              State cs'
                (stats_calls s ++ [(id winner, "win"); (id loser, "loss")])
                w)))).
Proof.
  destruct (combatants s) as [| c1 [| c2 rest]] eqn:Hc.
  - left. apply battle_guard. rewrite Hc. reflexivity.
  - left. apply battle_guard. rewrite Hc. reflexivity.
  - right. exists c1, c2, rest. split; [reflexivity |].
    destruct (get_battle_score c1) as [e1 | s1] eqn:H1;
      [left; exists e1; apply (battle_score_1_raises stats_updater entropy_source s Hc H1) |].
    destruct (get_battle_score c2) as [e2 | s2] eqn:H2;
      [left; exists e2; apply (battle_score_2_raises stats_updater entropy_source s Hc H1 H2) |].
    destruct (entropy_source (outside s)) as [[e | r] w] eqn:Hr.
    { right. left. exists e, w. rewrite <- Hc.
      apply (battle_draw_raises stats_updater entropy_source s Hc H1 H2 Hr). }
    right. right.
    assert (Hsettle : forall winner loser : Meal num,
      (winner = c1 /\ loser = c2) \/ (winner = c2 /\ loser = c1) ->
      battle' s =
        (report (id winner) "win" ;;
         report (id loser) "loss" ;;
         remove_combatant loser ;;
         ret (meal winner))%py (State (combatants s) (stats_calls s) w) ->
      exists winner0 loser0,
        ((winner0 = c1 /\ loser0 = c2) \/ (winner0 = c2 /\ loser0 = c1)) /\
        ((exists e w0,
            battle' s =
              (inl e,
               State (c1 :: c2 :: rest)
                 (stats_calls s ++ [(id winner0, "win")]) w0)) \/
         (exists e w0,
            battle' s =
              (inl e,
               State (c1 :: c2 :: rest)
                 (stats_calls s ++ [(id winner0, "win"); (id loser0, "loss")])
                 w0)) \/
         (exists cs' w0,
            list_remove Meal_eq loser0 (c1 :: c2 :: rest) = Some cs' /\
            battle' s =
              (inr (meal winner0),
               State cs'
                 (stats_calls s ++ [(id winner0, "win"); (id loser0, "loss")])
                 w0)))).
    { intros winner loser Hwl ->. exists winner, loser. split; [exact Hwl |].
      rewrite Hc.
      destruct (stats_updater (id winner) "win" w) as [[e |] w'] eqn:Hw.
      { left. exists e, w'.
        apply (settle_win_report_raises stats_updater _ _ _ _ _ Hw). }
      destruct (stats_updater (id loser) "loss" w') as [[e |] w''] eqn:Hl.
      { right. left. exists e, w''.
        apply (settle_loss_report_raises stats_updater _ _ _ _ _ Hw Hl). }
      rewrite (settle_reported stats_updater _ _ _ _ _ Hw Hl). cbv zeta.
      destruct Hwl as [[-> ->] | [-> ->]].
      - rewrite list_remove_next. right. right.
        eexists. exists w''. split; reflexivity.
      - rewrite list_remove_head. right. right.
        eexists. exists w''. split; reflexivity. }
    pose proof (battle_scored stats_updater entropy_source s Hc H1 H2 Hr) as Hb.
    destruct (lt r (divide (absolute (minus s1 s2)) (of_int 100)));
      cbv iota beta in Hb.
    + apply (Hsettle c1 c2); [left; split; reflexivity | exact Hb].
    + apply (Hsettle c2 c1); [right; split; reflexivity | exact Hb].
Qed.

(** A difficulty of the table makes the score a number. *)
Lemma get_battle_score_scorable (m : Meal num) :
  scorable_difficulty (difficulty m) -> exists x, get_battle_score m = inr x.
Proof.
  destruct m as [i n c p d]. unfold scorable_difficulty. cbn [difficulty].
  intros [-> | [-> | ->]]; eexists; reflexivity.
Qed.

Lemma get_battle_score_unscorable (m : Meal num) :
  ~ scorable_difficulty (difficulty m) ->
  get_battle_score m = inl (KeyError (difficulty m)).
Proof.
  intros Hd. unfold get_battle_score.
  rewrite dict_get_unknown_difficulty; [reflexivity | | |];
    intros E; apply Hd; unfold scorable_difficulty; auto.
Qed.

(** X1.  With fewer than two combatants staged, [prep_combatant] returns,
    the new combatant is last in the list, the others keep their places,
    nothing is reported and the outside world is not used; [get_combatants]
    then returns that list and changes nothing. *)
Theorem prep_combatant_then_get (s : state world) (m : Meal num) :
  (List.length (combatants s) < 2)%nat ->
  prep_combatant m s =
    (inr tt, State (combatants s ++ [m]) (stats_calls s) (outside s)) /\
  get_combatants (snd (prep_combatant m s)) =
    (inr (combatants s ++ [m])%list, snd (prep_combatant m s)).
Proof.
  intros Hlen.
  assert (E : prep_combatant m s =
              (inr tt, State (combatants s ++ [m]) (stats_calls s) (outside s))).
  { unfold prep_combatant, bind, get_self_combatants, set_self_combatants.
    replace (2 <=? Z.of_nat (List.length (combatants s)))%Z with false
      by (symmetry; apply Z.leb_gt; lia).
    reflexivity. }
  rewrite E. split; reflexivity.
Qed.

(** X2.  [clear_combatants] empties the list whatever it held, reports
    nothing and leaves the outside world alone; clearing again changes
    nothing more; a battle right after raises [ValueError] and a
    combatant staged right after is alone in the list. *)
Theorem clear_combatants_resets (s : state world) (m : Meal num) :
  clear_combatants s = (inr tt, State [] (stats_calls s) (outside s)) /\
  clear_combatants (snd (clear_combatants s)) = clear_combatants s /\
  battle' (snd (clear_combatants s)) =
    (inl (ValueError "Two combatants must be prepped for a battle."),
     snd (clear_combatants s)) /\
  combatants (snd (prep_combatant m (snd (clear_combatants s)))) = [m].
Proof.
  repeat split.
Qed.

(** X3.  When the report of the win raises, [battle] raises the same
    exception at once: the loss is never reported, and the combatant list
    is as it was. *)
Theorem battle_win_report_raises (s : state world) (c1 c2 : Meal num)
    (rest : list (Meal num)) (s1 s2 r : num) (w w' : world)
    (winner loser : Meal num) (e : exn) :
  combatants s = c1 :: c2 :: rest ->
  get_battle_score c1 = inr s1 ->
  get_battle_score c2 = inr s2 ->
  entropy_source (outside s) = (inr r, w) ->
  (if lt r (divide (absolute (minus s1 s2)) (of_int 100))
   then (c1, c2) else (c2, c1)) = (winner, loser) ->
  stats_updater (id winner) "win" w = (Some e, w') ->
  battle' s =
    (inl e,
     State (c1 :: c2 :: rest) (stats_calls s ++ [(id winner, "win")]) w').
Proof.
  intros Hc H1 H2 Hr Hwl Hw.
  rewrite (battle_scored stats_updater entropy_source s Hc H1 H2 Hr), Hwl.
  rewrite (settle_win_report_raises stats_updater _ _ _ _ _ Hw), Hc.
  reflexivity.
Qed.

(** X4.  When the first combatant's difficulty is not in the penalty
    table, or the first one's is and the second one's is not, [battle]
    raises [KeyError] with that difficulty; no random number is drawn,
    nothing is reported and nothing is removed. *)
Theorem battle_unscorable_combatant (s : state world) (c1 c2 : Meal num)
    (rest : list (Meal num)) :
  combatants s = c1 :: c2 :: rest ->
  (~ scorable_difficulty (difficulty c1) ->
   battle' s = (inl (KeyError (difficulty c1)), s)) /\
  (scorable_difficulty (difficulty c1) ->
   ~ scorable_difficulty (difficulty c2) ->
   battle' s = (inl (KeyError (difficulty c2)), s)).
Proof.
  intros Hc. split.
  - intros Hd1.
    apply (battle_score_1_raises stats_updater entropy_source s Hc).
    apply get_battle_score_unscorable, Hd1.
  - intros Hd1 Hd2. destruct (get_battle_score_scorable c1 Hd1) as [x Hx].
    apply (battle_score_2_raises stats_updater entropy_source s Hc Hx).
    apply get_battle_score_unscorable, Hd2.
Qed.

(** X5.  When both combatants can be scored and [get_random] raises,
    [battle] raises the same exception: nothing is reported and the
    combatant list is as it was. *)
Theorem battle_without_draw (s : state world) (c1 c2 : Meal num)
    (rest : list (Meal num)) (e : exn) (w : world) :
  combatants s = c1 :: c2 :: rest ->
  scorable_difficulty (difficulty c1) ->
  scorable_difficulty (difficulty c2) ->
  entropy_source (outside s) = (inl e, w) ->
  battle' s = (inl e, State (c1 :: c2 :: rest) (stats_calls s) w).
Proof.
  intros Hc Hd1 Hd2 Hr.
  destruct (get_battle_score_scorable c1 Hd1) as [x1 H1].
  destruct (get_battle_score_scorable c2 Hd2) as [x2 H2].
  rewrite (battle_draw_raises stats_updater entropy_source s Hc H1 H2 Hr), Hc.
  reflexivity.
Qed.

(** X6.  Only the first two combatants fight.  When the list holds more
    (it can be assigned directly, as the tests do) and [battle] returns,
    one of the first two is left in front, the one whose name is
    returned; the combatants behind keep their places; exactly two calls
    were added to the record. *)
Theorem battle_bystanders (s s' : state world) (c1 c2 : Meal num)
    (rest : list (Meal num)) (name : string) :
  combatants s = c1 :: c2 :: rest ->
  battle' s = (inr name, s') ->
  exists remaining,
    combatants s' = remaining :: rest /\
    (remaining = c1 \/ remaining = c2) /\
    meal remaining = name /\
    List.length (stats_calls s') = (List.length (stats_calls s) + 2)%nat.
Proof.
  intros Hc Hb.
  destruct (battle_returns_inv _ Hc Hb)
    as (winner & loser & remaining & Hwl & Hcs & Heq & Hrem & Hcalls & Hname).
  exists remaining. split; [exact Hcs |]. split; [exact Hrem |]. split.
  - rewrite Hname. symmetry. apply Meal_eq_meal, Heq.
  - rewrite Hcalls, length_app. reflexivity.
Qed.

(** X7.  After a battle between two staged combatants has returned, the
    one left is the champion: its name is the one returned; a battle
    right away raises [ValueError] and reports nothing; and the next
    combatant staged stands behind the champion, which will be
    combatant 1 of the next battle. *)
Theorem battle_rematch (s s' : state world) (c1 c2 m : Meal num)
    (name : string) :
  combatants s = [c1; c2] ->
  battle' s = (inr name, s') ->
  battle' s' =
    (inl (ValueError "Two combatants must be prepped for a battle."), s') /\
  exists champion,
    meal champion = name /\
    prep_combatant m s' =
      (inr tt, State [champion; m] (stats_calls s') (outside s')).
Proof.
  intros Hc Hb.
  destruct (battle_returns_inv _ Hc Hb)
    as (winner & loser & remaining & _ & Hcs & Heq & _ & _ & Hname).
  split.
  - apply battle_guard. rewrite Hcs. reflexivity.
  - exists remaining. split.
    + rewrite Hname. symmetry. apply Meal_eq_meal, Heq.
    + unfold prep_combatant, bind, get_self_combatants, set_self_combatants.
      rewrite Hcs. reflexivity.
Qed.

(** X8.  A call of [battle] adds to the record of reports nothing, or a
    win, or a win followed by a loss; the two ids are those of the first
    two combatants, one each; and a battle that returns has added both. *)
Theorem battle_reports_in_order (s : state world) :
  exists new,
    stats_calls (snd (battle' s)) = (stats_calls s ++ new)%list /\
    (new = [] \/
     exists c1 c2 rest winner loser,
       combatants s = c1 :: c2 :: rest /\
       ((winner = c1 /\ loser = c2) \/ (winner = c2 /\ loser = c1)) /\
       (new = [(id winner, "win")] \/
        new = [(id winner, "win"); (id loser, "loss")])) /\
    (forall name, fst (battle' s) = inr name -> List.length new = 2%nat).
Proof.
  destruct (battle_cases s) as [Hg | (c1 & c2 & rest & Hc & Hcase)].
  - exists []. rewrite Hg, app_nil_r. cbn [fst snd].
    repeat split; [left; reflexivity | discriminate].
  - destruct Hcase as [[e He] | [(e & w & He) | (wn & ls & Hwl & Hcase)]].
    + exists []. rewrite He, app_nil_r. cbn [fst snd].
      repeat split; [left; reflexivity | discriminate].
    + exists []. rewrite He, app_nil_r. cbn [fst snd stats_calls].
      repeat split; [left; reflexivity | discriminate].
    + destruct Hcase as [(e & w & He) | [(e & w & He) | (cs' & w & _ & He)]];
        rewrite He; cbn [fst snd stats_calls].
      * exists [(id wn, "win")]. split; [reflexivity |].
        split; [| discriminate].
        right. exists c1, c2, rest, wn, ls. auto.
      * exists [(id wn, "win"); (id ls, "loss")]. split; [reflexivity |].
        split; [| discriminate].
        right. exists c1, c2, rest, wn, ls. auto.
      * exists [(id wn, "win"); (id ls, "loss")]. split; [reflexivity |].
        split; [| reflexivity].
        right. exists c1, c2, rest, wn, ls. auto.
Qed.

(** Each call adds at most two reports, and only [battle] adds any. *)
Lemma perform_reports (c : call) (s : state world) :
  exists new,
    stats_calls (perform' c s) = (stats_calls s ++ new)%list /\
    (List.length new <= 2 * count_battles [c])%nat.
Proof.
  destruct c as [m | | |]; cbn [perform count_battles].
  - exists []. rewrite app_nil_r. split; [| cbn; lia].
    unfold prep_combatant, bind, get_self_combatants, set_self_combatants.
    destruct (2 <=? Z.of_nat (List.length (combatants s)))%Z; reflexivity.
  - destruct (battle_cases s) as [Hg | (c1 & c2 & rest & Hc & Hcase)].
    + exists []. rewrite Hg, app_nil_r. split; [reflexivity | cbn; lia].
    + destruct Hcase as [[e He] | [(e & w & He) | (wn & ls & Hwl & Hcase)]].
      * exists []. rewrite He, app_nil_r. split; [reflexivity | cbn; lia].
      * exists []. rewrite He, app_nil_r. split; [reflexivity | cbn; lia].
      * destruct Hcase as [(e & w & He) | [(e & w & He) | (cs' & w & _ & He)]];
          rewrite He; cbn [snd stats_calls]; eexists;
          (split; [reflexivity | cbn; lia]).
  - exists []. rewrite app_nil_r. split; [reflexivity | cbn; lia].
  - exists []. rewrite app_nil_r. split; [reflexivity | cbn; lia].
Qed.

Lemma count_battles_cons (c : call (num := num)) (calls : list call) :
  count_battles (c :: calls) = (count_battles [c] + count_battles calls)%nat.
Proof. destruct c; reflexivity. Qed.

(** X9.  Over any sequence of calls on a [BattleModel] the record of
    reports only grows, and by at most two reports for each call of
    [battle]: staging, reading and clearing report nothing. *)
Theorem session_reports_bounded (calls : list call) (s : state world) :
  exists new,
    stats_calls (session' calls s) = (stats_calls s ++ new)%list /\
    (List.length new <= 2 * count_battles calls)%nat.
Proof.
  revert s. induction calls as [| c calls IH]; intros s.
  - exists []. rewrite app_nil_r. split; [reflexivity | cbn; lia].
  - cbn [session fold_left].
    destruct (perform_reports c s) as (new1 & E1 & L1).
    destruct (IH (perform' c s)) as (new2 & E2 & L2).
    exists (new1 ++ new2)%list. split.
    + unfold session in E2. rewrite E2, E1, app_assoc. reflexivity.
    + rewrite length_app, (count_battles_cons c calls). lia.
Qed.

(** No call brings in a combatant other than the one it stages. *)
Lemma perform_In (c : call) (s : state world) (m : Meal num) :
  In m (combatants (perform' c s)) -> In m (combatants s) \/ c = Prep m.
Proof.
  destruct c as [m' | | |]; cbn [perform].
  - unfold prep_combatant, bind, get_self_combatants, set_self_combatants.
    destruct (2 <=? Z.of_nat (List.length (combatants s)))%Z;
      cbn [snd combatants]; [auto |].
    intros Hin. apply in_app_or in Hin. destruct Hin as [Hin | [<- | []]]; auto.
  - intros Hin. left.
    destruct (battle_cases s) as [Hg | (c1 & c2 & rest & Hc & Hcase)].
    + rewrite Hg in Hin. exact Hin.
    + destruct Hcase as [[e He] | [(e & w & He) | (wn & ls & Hwl & Hcase)]].
      * rewrite He in Hin. exact Hin.
      * rewrite He in Hin. exact Hin.
      * destruct Hcase as [(e & w & He) | [(e & w & He) | (cs' & w & Hrm & He)]];
          rewrite He in Hin; cbn [snd combatants] in Hin; try exact Hin.
        eapply list_remove_In; eassumption.
  - intros [].
  - auto.
Qed.

(** X10.  A [BattleModel] never holds a combatant that was not staged:
    whatever is called on a new one, each combatant in the list was the
    argument of a [prep_combatant] of the sequence. *)
Theorem session_combatants_were_staged (calls : list call) (w : world)
    (m : Meal num) :
  In m (combatants (session' calls (init w))) -> In (Prep m) calls.
Proof.
  assert (Hgen : forall (s : state world),
            In m (combatants (session' calls s)) ->
            In m (combatants s) \/ In (Prep m) calls).
  { induction calls as [| c calls IH]; intros s Hin; [left; exact Hin |].
    cbn [session fold_left] in Hin.
    destruct (IH (perform' c s) Hin) as [Hin' | Hin'].
    - destruct (perform_In c s m Hin') as [Hs | ->].
      + left. exact Hs.
      + right. left. reflexivity.
    - right. right. exact Hin'. }
  intros Hin. destruct (Hgen (init w) Hin) as [[] | Hp]. exact Hp.
Qed.

End ArenaCalls.

(** ** Places, not scores, decide *)

(** [abs(x - y)] and [abs(y - x)] are the same number. *)
Class PyDistance (num : Type) `{PyNumber num} : Prop := {
  distance_sym : forall x y : num, absolute (minus x y) = absolute (minus y x)
}.

Arguments PyDistance num {H}.

Lemma SFabs_binary_round_aux (p e : Z) (sx sy : bool) (mx ex : Z)
    (lx : location) :
  SFabs (binary_round_aux p e sx mx ex lx) =
  SFabs (binary_round_aux p e sy mx ex lx).
Proof.
  unfold binary_round_aux.
  destruct (shr_fexp p e mx ex lx) as [mrs' e'].
  destruct (shr_fexp p e (round_nearest_even (shr_m mrs') (loc_of_shr_record mrs'))
              e' loc_Exact) as [mrs'' e''].
  destruct (shr_m mrs'') as [| m | m]; [reflexivity | | reflexivity].
  destruct (e'' <=? e - p)%Z; reflexivity.
Qed.

Lemma SFabs_binary_round (p e : Z) (sx sy : bool) (mx : positive) (ex : Z) :
  SFabs (binary_round p e sx mx ex) = SFabs (binary_round p e sy mx ex).
Proof.
  unfold binary_round.
  destruct (shl_align mx ex (fexp p e (Z.pos (digits2_pos mx) + ex))) as [mz ez].
  apply SFabs_binary_round_aux.
Qed.

Lemma SFabs_binary_normalize_opp (p e m ex : Z) (sz : bool) :
  SFabs (binary_normalize p e (- m) ex sz) =
  SFabs (binary_normalize p e m ex sz).
Proof.
  destruct m as [| m | m]; cbn [binary_normalize Z.opp];
    [reflexivity | apply SFabs_binary_round | apply SFabs_binary_round].
Qed.

Lemma SFabs_SFsub_swap (p e : Z) (x y : spec_float) :
  SFabs (SFsub p e x y) = SFabs (SFsub p e y x).
Proof.
  destruct x as [sx | sx | | sx mx ex], y as [sy | sy | | sy my ey];
    cbn [SFsub SFabs]; try reflexivity;
    try (destruct sx, sy; reflexivity).
  change (IntDef.Z.min ey ex) with (Z.min ey ex).
  change (IntDef.Z.min ex ey) with (Z.min ex ey).
  rewrite (Z.min_comm ey ex).
  set (a := cond_Zopp sx (Z.pos (fst (shl_align mx ex (Z.min ex ey))))).
  set (b := cond_Zopp sy (Z.pos (fst (shl_align my ey (Z.min ex ey))))).
  replace (b - a)%Z with (- (a - b))%Z by lia.
  symmetry. apply SFabs_binary_normalize_opp.
Qed.

Lemma float_distance_sym (x y : float) :
  PrimFloat.abs (x - y) = PrimFloat.abs (y - x).
Proof.
  apply FloatAxioms.Prim2SF_inj.
  rewrite !FloatAxioms.abs_spec, !FloatAxioms.sub_spec.
  apply SFabs_SFsub_swap.
Qed.

#[global] Instance float_PyDistance : PyDistance float := {
  distance_sym := float_distance_sym
}.

Lemma Q_distance_sym (x y : Q) : Qabs (x - y) = Qabs (y - x).
Proof.
  destruct x as [xn xd], y as [yn yd].
  unfold Qabs, Qminus, Qplus, Qopp. cbn [Qnum Qden].
  rewrite (Pos.mul_comm yd xd). f_equal.
  rewrite <- (Z.abs_opp (yn * Z.pos xd + - xn * Z.pos yd)). f_equal. ring.
Qed.

#[global] Instance Q_PyDistance : PyDistance Q := {
  distance_sym := Q_distance_sym
}.

Section Places.

Context {num : Type} `{PyDistance num}.

Variable world : Type.
Variable stats_updater : Z -> string -> world -> option exn * world.
Variable entropy_source : world -> (exn + num) * world.

Local Notation "'battle''" := (battle stats_updater entropy_source).

Open Scope string_scope.

(** The combatant that [battle] names, both scores and the draw known. *)
Lemma battle_declares (s : state world) (c1 c2 : Meal num)
    (rest : list (Meal num)) (s1 s2 r : num) (w : world) :
  combatants s = c1 :: c2 :: rest ->
  get_battle_score c1 = inr s1 ->
  get_battle_score c2 = inr s2 ->
  entropy_source (outside s) = (inr r, w) ->
  declares_winner s (battle' s)
    (if lt r (divide (absolute (minus s1 s2)) (of_int 100)) then c1 else c2).
Proof.
  intros Hc H1 H2 Hr.
  rewrite (battle_scored stats_updater entropy_source s Hc H1 H2 Hr).
  set (winner := if lt r (divide (absolute (minus s1 s2)) (of_int 100))
                 then c1 else c2).
  set (loser := if lt r (divide (absolute (minus s1 s2)) (of_int 100))
                then c2 else c1).
  replace (if lt r (divide (absolute (minus s1 s2)) (of_int 100))
           then (c1, c2) else (c2, c1)) with (winner, loser)
    by (unfold winner, loser;
        destruct (lt r (divide (absolute (minus s1 s2)) (of_int 100)));
        reflexivity).
  destruct (stats_updater (id winner) "win" w) as [[e |] w'] eqn:Hw.
  - rewrite (settle_win_report_raises stats_updater _ _ _ _ loser Hw). split.
    + exists []. reflexivity.
    + cbn [fst]. discriminate.
  - destruct (stats_updater (id loser) "loss" w') as [[e |] w''] eqn:Hl.
    + rewrite (settle_loss_report_raises stats_updater _ _ _ _ _ Hw Hl). split.
      * exists [(id loser, "loss")]. reflexivity.
      * cbn [fst]. discriminate.
    + rewrite (settle_reported stats_updater _ _ _ _ _ Hw Hl). cbv zeta.
      destruct (list_remove Meal_eq loser (combatants s)); split;
        cbn [fst snd stats_calls];
        try (exists [(id loser, "loss")]; reflexivity);
        congruence.
Qed.

(** X11.  Who is named the winner depends on the places, not on which
    score is higher: for the same two combatants and the same draw,
    [battle] names the first of the list in either order of staging, or
    the second in either order. *)
Theorem staging_order_decides (s t : state world) (a b : Meal num)
    (sa sb r : num) (ws wt : world) :
  combatants s = [a; b] ->
  combatants t = [b; a] ->
  get_battle_score a = inr sa ->
  get_battle_score b = inr sb ->
  entropy_source (outside s) = (inr r, ws) ->
  entropy_source (outside t) = (inr r, wt) ->
  (declares_winner s (battle' s) a /\ declares_winner t (battle' t) b) \/
  (declares_winner s (battle' s) b /\ declares_winner t (battle' t) a).
Proof.
  intros Hs Ht Ha Hb Hrs Hrt.
  pose proof (battle_declares s Hs Ha Hb Hrs) as Ds.
  pose proof (battle_declares t Ht Hb Ha Hrt) as Dt.
  rewrite (distance_sym sb sa) in Dt.
  destruct (lt r (divide (absolute (minus sa sb)) (of_int 100))); auto.
Qed.

End Places.

(** ** Construction, completely *)

Section ConstructionIff.

Context {num : Type} `{PyNumber num}.

Open Scope string_scope.

(** X12.  [Meal(...)] returns exactly when [price < 0] is false and the
    difficulty is Easy, Medium or Hard, and then it returns the five
    values as given; it raises the [ValueError] about the difficulty
    exactly when [price < 0] is false and the difficulty is none of the
    three: a negative price is reported first. *)
Theorem new_Meal_returns_iff (i : Z) (n c : string) (p : num) (d : string) :
  (forall m,
     new_Meal i n c p d = inr m <->
     lt p (of_int 0) = false /\
     (d = "Easy" \/ d = "Medium" \/ d = "Hard") /\
     m = Build_Meal i n c p d) /\
  (new_Meal i n c p d =
     inl (ValueError "Difficulty must be 'Easy', 'Medium', or 'Hard'.") <->
   lt p (of_int 0) = false /\
   ~ (d = "Easy" \/ d = "Medium" \/ d = "Hard")).
Proof.
  unfold new_Meal, post_init. cbn [price difficulty].
  destruct (lt p (of_int 0)).
  - split; [intros m |]; split; try discriminate;
      intros [E _]; discriminate.
  - destruct (str_in d ["Easy"; "Medium"; "Hard"]) eqn:Hd; cbn [negb].
    + apply str_in_recognized in Hd. split; [intros m |]; split.
      * intros E. injection E as <-. auto.
      * intros (_ & _ & ->). reflexivity.
      * discriminate.
      * intros [_ Hn]. contradiction.
    + assert (Hn : ~ (d = "Easy" \/ d = "Medium" \/ d = "Hard")).
      { intros Hr. apply str_in_recognized in Hr. congruence. }
      split; [intros m |]; split.
      * discriminate.
      * intros (_ & Hr & _). contradiction.
      * auto.
      * reflexivity.
Qed.

End ConstructionIff.

(** ** The database functions *)

Section Database.

Context {num : Type} `{PyNumber num}.

Variable database : Type.
Variable db_answer : db_call (num := num) -> database -> option exn * database.
Variable db_fetchone : database -> (exn + option (row (num := num))) * database.

Local Notation "'fetch'" := (fetch_meal_from_db db_answer db_fetchone).
Local Notation "'add'" := (add_meal_to_db db_answer).
Local Notation "'update'" := (update_meal_in_db db_answer).
Local Notation "'delete'" := (delete_meal_from_db db_answer).
Local Notation "'run'" := (db_do db_answer).

Open Scope string_scope.

Ltac db_unfold :=
  unfold try_finally, try_except_DatabaseError, bind, db_do, fetchone, lift,
    raise, ret;
  cbn [db db_calls fst snd].

Ltac db_answers :=
  repeat match goal with
         | |- context [db_answer ?c ?d] =>
             let a := fresh "a" in
             let d' := fresh "d" in
             let E := fresh "E" in
             destruct (db_answer c d) as [[a |] d'] eqn:E;
             cbn [db db_calls fst snd]
         | |- context [db_fetchone ?d] =>
             let a := fresh "a" in
             let d' := fresh "d" in
             let E := fresh "E" in
             destruct (db_fetchone d) as [[a | [[[[[? ?] ?] ?] ?] |]] d'] eqn:E;
             cbn [db db_calls fst snd]
         | |- context [match ?e with DatabaseError _ => _ | _ => _ end] =>
             destruct e; cbn [db db_calls fst snd]
         | |- context [new_Meal ?i ?n ?c ?p ?d] =>
             let E := fresh "E" in
             destruct (new_Meal i n c p d) as [[] |] eqn:E;
             cbn [db db_calls fst snd]
         end.

Ltac db_calls_are l :=
  exists l; unfold calls_since; cbn [db_calls fst snd];
  rewrite <- ?app_assoc; cbn [app].

Ltac db_closed :=
  first
    [ left; reflexivity
    | right;
      first
        [ exists []; split; [reflexivity | cbn; intuition discriminate]
        | exists [Cursor]; split; [reflexivity | cbn; intuition discriminate]
        | eexists [Cursor; Execute _ _]; split;
          [reflexivity | cbn; intuition discriminate]
        | eexists [Cursor; Execute _ _; Commit]; split;
          [reflexivity | cbn; intuition discriminate]
        | eexists [Cursor; Execute _ _; Fetchone]; split;
          [reflexivity | cbn; intuition discriminate] ] ].


(** [fetch_meal_from_db] makes its calls in one order, and never commits. *)
Lemma fetch_discipline (meal_id : Z) (s : db_state database) :
  exists new,
    calls_since s (snd (fetch meal_id s)) new /\
    closes_connection new /\
    ~ In Commit new /\
    (forall m, fst (fetch meal_id s) = inr m ->
       constructed m /\
       new = [Connect; Cursor;
              Execute
                "SELECT id, meal, cuisine, price, difficulty FROM meals WHERE id = ?"
                [SqlInteger meal_id];
              Fetchone; Close]).
Proof.
  unfold fetch_meal_from_db. db_unfold. db_answers;
    eexists; (split; [unfold calls_since; cbn [db_calls fst snd];
                      rewrite <- ?app_assoc; cbn [app]; reflexivity |]);
    (split; [db_closed |]);
    (split; [cbn; intuition discriminate |]);
    cbn [fst]; intros m0 Hm; try discriminate.
  injection Hm as <-. split; [| reflexivity].
  unfold constructed. eauto 10.
Qed.



(** X15.  A meal that [fetch_meal_from_db] returns went through
    [__post_init__]: it is a constructed meal, so its difficulty is not
    a key of the penalty table and [get_battle_score] raises [KeyError]
    on it. *)
Theorem fetched_meal_never_scores (s s' : db_state database) (meal_id : Z)
    (m : Meal num) :
  fetch meal_id s = (inr m, s') ->
  constructed m /\
  get_battle_score m = inl (KeyError (difficulty m)).
Proof.
  intros E.
  destruct (fetch_discipline meal_id s) as (new & _ & _ & _ & Hm).
  destruct (Hm m) as [Hc _]; [rewrite E; reflexivity |].
  split; [exact Hc | apply constructed_not_scorable, Hc].
Qed.

(** X16.  When every call into the database returns, the outcome of
    [fetch_meal_from_db] is decided by the row: no row raises
    [ValueError] (no such id), a row is given to [Meal(...)], whose
    [ValueError] (negative price, difficulty not recognized) comes out
    unchanged; in each case the connection is closed. *)
Theorem fetch_by_row (s : db_state database) (meal_id : Z)
    (result : option row) (d0 d1 d2 d3 d4 : database) :
  db_answer Connect (db s) = (None, d0) ->
  db_answer Cursor d0 = (None, d1) ->
  db_answer
    (Execute "SELECT id, meal, cuisine, price, difficulty FROM meals WHERE id = ?"
       [SqlInteger meal_id]) d1 = (None, d2) ->
  db_fetchone d2 = (inr result, d3) ->
  db_answer Close d3 = (None, d4) ->
  fetch meal_id s =
    (match result with
     | None => inl (ValueError "Meal with specified ID does not exist.")
     | Some (id_, meal_, cuisine_, price_, difficulty_) =>
         new_Meal id_ meal_ cuisine_ price_ difficulty_
     end,
     DbState
       (db_calls s ++
        [Connect; Cursor;
         Execute
           "SELECT id, meal, cuisine, price, difficulty FROM meals WHERE id = ?"
           [SqlInteger meal_id];
         Fetchone; Close]) d4).
Proof.
  intros E0 E1 E2 E3 E4.
  unfold fetch_meal_from_db. db_unfold.
  rewrite E0. cbn [db db_calls fst snd].
  rewrite E1. cbn [db db_calls fst snd].
  rewrite E2. cbn [db db_calls fst snd].
  rewrite E3. cbn [db db_calls fst snd].
  destruct result as [[[[[i n] c] p] d] |].
  - destruct (new_Meal i n c p d) as [[] | m] eqn:Em;
      cbn [db db_calls fst snd]; rewrite E4;
      rewrite <- ?app_assoc; reflexivity.
  - cbn [db db_calls fst snd]. rewrite E4.
    rewrite <- ?app_assoc. reflexivity.
Qed.

End Database.

(** ** The random number *)

Section RandomOrg.

Context {num : Type} `{PyNumber num}.

Variable world : Type.
Variable requests_get :
  string -> Z -> world ->
  (RandomUtils.requests_exception + RandomUtils.Response) * world.
Variable strip : string -> string.
Variable float_of_str : string -> option num.
Variable stats_updater : Z -> string -> world -> option exn * world.

Local Notation "'get_random''" :=
  (RandomUtils.get_random requests_get strip float_of_str).

Open Scope string_scope.

(** X17.  [get_random] makes one request, for one integer from 1 to 100,
    with a timeout of 5.  It returns a number exactly when the request
    returned, its status was no error and [float] accepted the stripped
    text, and then it returns that number; otherwise it raises
    [RuntimeError] or [ValueError] and nothing else: no exception of the
    requests library comes out. *)
Theorem get_random_outcomes (w : world) :
  snd (get_random' w) = snd (requests_get RandomUtils.url 5 w) /\
  (forall x,
     fst (get_random' w) = inr x <->
     exists response,
       fst (requests_get RandomUtils.url 5 w) = inr response /\
       RandomUtils.status_error response = None /\
       float_of_str (strip (RandomUtils.text response)) = Some x) /\
  (forall e,
     fst (get_random' w) = inl e ->
     (exists msg, e = RuntimeError msg) \/ (exists msg, e = ValueError msg)).
Proof.
  unfold RandomUtils.get_random.
  destruct (requests_get RandomUtils.url 5 w) as [[[msg | msg] | response] w'];
    cbn [fst snd].
  - split; [reflexivity |]. split.
    + intros x. split; [discriminate |].
      intros (response & E & _). discriminate.
    + intros e E. injection E as <-. left. eauto.
  - split; [reflexivity |]. split.
    + intros x. split; [discriminate |].
      intros (response & E & _). discriminate.
    + intros e E. injection E as <-. left. eauto.
  - destruct (RandomUtils.status_error response) as [err |] eqn:Hs;
      cbn [fst snd].
    + split; [reflexivity |]. split.
      * intros x. split; [discriminate |].
        intros (response' & E & Hs' & _). injection E as <-. congruence.
      * intros e E. injection E as <-. left. eauto.
    + destruct (float_of_str (strip (RandomUtils.text response)))
        as [x0 |] eqn:Hf; cbn [fst snd].
      * split; [reflexivity |]. split.
        -- intros x. split.
           ++ intros E. injection E as <-. exists response. auto.
           ++ intros (response' & E & _ & Hf'). injection E as <-. congruence.
        -- discriminate.
      * split; [reflexivity |]. split.
        -- intros x. split; [discriminate |].
           intros (response' & E & _ & Hf'). injection E as <-. congruence.
        -- intros e E. injection E as <-. right. eauto.
Qed.

(** X18.  A battle whose random number comes from [get_random]: when the
    request to random.org times out, [battle] raises [RuntimeError] after
    scoring both combatants; no win or loss is reported and both
    combatants stay staged. *)
Theorem battle_random_org_timeout (s : state world) (c1 c2 : Meal num)
    (rest : list (Meal num)) (msg : string) (w : world) :
  combatants s = c1 :: c2 :: rest ->
  scorable_difficulty (difficulty c1) ->
  scorable_difficulty (difficulty c2) ->
  requests_get RandomUtils.url 5 (outside s) = (inl (RandomUtils.Timeout msg), w) ->
  battle stats_updater get_random' s =
    (inl (RuntimeError "Request to random.org timed out."),
     State (c1 :: c2 :: rest) (stats_calls s) w).
Proof.
  intros Hc Hd1 Hd2 Hr.
  destruct (get_battle_score_scorable c1 Hd1) as [x1 H1].
  destruct (get_battle_score_scorable c2 Hd2) as [x2 H2].
  assert (Hg : get_random' (outside s) =
               (inl (RuntimeError "Request to random.org timed out."), w)).
  { unfold RandomUtils.get_random. rewrite Hr. reflexivity. }
  rewrite (battle_draw_raises stats_updater get_random' s Hc H1 H2 Hg), Hc.
  reflexivity.
Qed.

End RandomOrg.

(** ** The further properties on the meals of the tests *)

Section MoreInstances.

Import Mock Scenario MockDB.

Open Scope string_scope.

Lemma MED_scorable : scorable_difficulty "MED".
Proof. right. left. reflexivity. Qed.

Lemma LOW_scorable : scorable_difficulty "LOW".
Proof. right. right. reflexivity. Qed.

Lemma Easy_unscorable : ~ scorable_difficulty "Easy".
Proof. intros [E | [E | E]]; discriminate. Qed.

Lemma prep_combatant_then_get_witness :
  prep_combatant sample_meal2 (arena [sample_meal1] [] []) =
    (inr tt, arena [sample_meal1; sample_meal2] [] []) /\
  get_combatants (snd (prep_combatant sample_meal2 (arena [sample_meal1] [] []))) =
    (inr [sample_meal1; sample_meal2],
     snd (prep_combatant sample_meal2 (arena [sample_meal1] [] []))).
Proof.
  apply (prep_combatant_then_get (arena [sample_meal1] [] []) sample_meal2).
  cbn. lia.
Defined.

Lemma battle_win_report_raises_witness :
  run_battle
    (arena [sample_meal1; sample_meal2] [0.5%float]
       [Some (DatabaseError "database is locked")]) =
  (inl (DatabaseError "database is locked"),
   State [sample_meal1; sample_meal2] ([] ++ [(id sample_meal2, "win")])
     (Script [] [])).
Proof.
  apply (@battle_win_report_raises float _ _ mock_update_stats mock_get_random
           (arena [sample_meal1; sample_meal2] [0.5%float]
              [Some (DatabaseError "database is locked")])
           sample_meal1 sample_meal2 []
           (12.99 * 7 - 2)%float (9.99 * 8 - 3)%float 0.5%float
           (Script [] [Some (DatabaseError "database is locked")])
           (Script [] [])
           sample_meal2 sample_meal1 (DatabaseError "database is locked"));
    reflexivity.
Defined.

Lemma battle_unscorable_combatant_witness :
  run_battle (arena [easy_meal; sample_meal1] [0.5%float] []) =
    (inl (KeyError "Easy"), arena [easy_meal; sample_meal1] [0.5%float] []) /\
  run_battle (arena [sample_meal1; easy_meal] [0.5%float] []) =
    (inl (KeyError "Easy"), arena [sample_meal1; easy_meal] [0.5%float] []).
Proof.
  split.
  - apply (proj1 (@battle_unscorable_combatant float _ _
                    mock_update_stats mock_get_random
                    (arena [easy_meal; sample_meal1] [0.5%float] [])
                    easy_meal sample_meal1 [] eq_refl)).
    exact Easy_unscorable.
  - apply (proj2 (@battle_unscorable_combatant float _ _
                    mock_update_stats mock_get_random
                    (arena [sample_meal1; easy_meal] [0.5%float] [])
                    sample_meal1 easy_meal [] eq_refl)).
    + exact MED_scorable.
    + exact Easy_unscorable.
Defined.

Lemma battle_without_draw_witness :
  run_battle (arena [sample_meal1; sample_meal2] [] []) =
    (inl (RuntimeError "Request to random.org timed out."),
     State [sample_meal1; sample_meal2] [] (Script [] [])).
Proof.
  apply (@battle_without_draw float _ _ mock_update_stats mock_get_random
           (arena [sample_meal1; sample_meal2] [] [])
           sample_meal1 sample_meal2 []).
  - reflexivity.
  - exact MED_scorable.
  - exact LOW_scorable.
  - reflexivity.
Defined.

Lemma battle_bystanders_witness :
  exists remaining : Meal float,
    [sample_meal2; sushi] = [remaining; sushi] /\
    (remaining = sample_meal1 \/ remaining = sample_meal2) /\
    meal remaining = "Burger" /\
    List.length [(2%Z, "win"); (1%Z, "loss")] = (List.length (A := Z * string) [] + 2)%nat.
Proof.
  apply (@battle_bystanders float _ _ _ mock_update_stats mock_get_random
           (arena [sample_meal1; sample_meal2; sushi] [0.5%float] [])
           (State [sample_meal2; sushi] [(2%Z, "win"); (1%Z, "loss")]
              (Script [] []))
           sample_meal1 sample_meal2 [sushi] "Burger");
    reflexivity.
Defined.

Lemma battle_rematch_witness :
  run_battle (State [sample_meal2] [(2%Z, "win"); (1%Z, "loss")] (Script [] [])) =
    (inl (ValueError "Two combatants must be prepped for a battle."),
     State [sample_meal2] [(2%Z, "win"); (1%Z, "loss")] (Script [] [])) /\
  exists champion : Meal float,
    meal champion = "Burger" /\
    prep_combatant sushi
      (State [sample_meal2] [(2%Z, "win"); (1%Z, "loss")]
         (Script (num := float) [] [])) =
      (inr tt,
       State [champion; sushi] [(2%Z, "win"); (1%Z, "loss")] (Script [] [])).
Proof.
  apply (@battle_rematch float _ _ _ mock_update_stats mock_get_random
           (arena [sample_meal1; sample_meal2] [0.5%float] [])
           (State [sample_meal2] [(2%Z, "win"); (1%Z, "loss")] (Script [] []))
           sample_meal1 sample_meal2 sushi "Burger");
    reflexivity.
Defined.

Lemma battle_reports_in_order_witness :
  exists new,
    stats_calls
      (snd (run_battle (arena [sample_meal1; sample_meal2] [0.5%float] []))) =
      (stats_calls (arena [sample_meal1; sample_meal2] [0.5%float] []) ++ new)%list /\
    (new = [] \/
     exists c1 c2 rest winner loser,
       combatants (arena [sample_meal1; sample_meal2] [0.5%float] []) =
         c1 :: c2 :: rest /\
       ((winner = c1 /\ loser = c2) \/ (winner = c2 /\ loser = c1)) /\
       (new = [(id winner, "win")] \/
        new = [(id winner, "win"); (id loser, "loss")])) /\
    (forall name,
       fst (run_battle (arena [sample_meal1; sample_meal2] [0.5%float] [])) =
         inr name ->
       List.length new = 2%nat).
Proof.
  exact (@battle_reports_in_order float _ _ _ mock_update_stats mock_get_random
           (arena [sample_meal1; sample_meal2] [0.5%float] [])).
Defined.

(** Two stagings and two battles, of which the second raises: two
    reports. *)
Lemma session_reports_bounded_witness :
  exists new,
    stats_calls
      (session mock_update_stats mock_get_random
         [Prep sample_meal1; Prep sample_meal2; Battle; Battle]
         (init (Script [inr 0.5%float] []))) =
      (stats_calls (init (num := float) (Script [inr 0.5%float] [])) ++ new)%list /\
    (List.length new <=
     2 * count_battles
           [Prep sample_meal1; Prep sample_meal2; Battle; Battle])%nat.
Proof.
  exact (@session_reports_bounded float _ _ _ mock_update_stats mock_get_random
           [Prep sample_meal1; Prep sample_meal2; Battle; Battle]
           (init (Script [inr 0.5%float] []))).
Defined.

Lemma session_combatants_were_staged_witness :
  In (Prep sample_meal2)
    [Prep sample_meal1; Prep sample_meal2; Prep sushi; Battle].
Proof.
  apply (@session_combatants_were_staged float _ _ _
           mock_update_stats mock_get_random
           [Prep sample_meal1; Prep sample_meal2; Prep sushi; Battle]
           (Script [inr 0.5%float] []) sample_meal2).
  left. reflexivity.
Defined.

(** Pizza scores 88.93 and Burger 76.92; with the draw 0.05 the meal
    staged first wins, be it Pizza or Burger. *)
Lemma staging_order_decides_witness :
  (declares_winner
     (arena [sample_meal1; sample_meal2] [0.05%float] [])
     (run_battle (arena [sample_meal1; sample_meal2] [0.05%float] []))
     sample_meal1 /\
   declares_winner
     (arena [sample_meal2; sample_meal1] [0.05%float] [])
     (run_battle (arena [sample_meal2; sample_meal1] [0.05%float] []))
     sample_meal2) \/
  (declares_winner
     (arena [sample_meal1; sample_meal2] [0.05%float] [])
     (run_battle (arena [sample_meal1; sample_meal2] [0.05%float] []))
     sample_meal2 /\
   declares_winner
     (arena [sample_meal2; sample_meal1] [0.05%float] [])
     (run_battle (arena [sample_meal2; sample_meal1] [0.05%float] []))
     sample_meal1).
Proof.
  exact (@staging_order_decides float _ _ _ mock_update_stats mock_get_random
           (arena [sample_meal1; sample_meal2] [0.05%float] [])
           (arena [sample_meal2; sample_meal1] [0.05%float] [])
           sample_meal1 sample_meal2
           (12.99 * 7 - 2)%float (9.99 * 8 - 3)%float 0.05%float
           (Script [] []) (Script [] [])
           eq_refl eq_refl eq_refl eq_refl eq_refl eq_refl).
Defined.

(** A stored row that [Meal(...)] accepts is fetched, and does not score. *)
Lemma fetched_meal_never_scores_witness :
  constructed easy_meal /\
  get_battle_score easy_meal = inl (KeyError (difficulty easy_meal)).
Proof.
  apply (@fetched_meal_never_scores float _ _ mock_db_answer mock_fetchone
           (DbState []
              (ScriptedDb [] (Some (4%Z, "Toast", "British", 2.5%float, "Easy"))))
           (DbState
              [Connect; Cursor;
               Execute
                 "SELECT id, meal, cuisine, price, difficulty FROM meals WHERE id = ?"
                 [SqlInteger 4];
               Fetchone; Close]
              (ScriptedDb [] (Some (4%Z, "Toast", "British", 2.5%float, "Easy"))))
           4%Z easy_meal).
  reflexivity.
Defined.

(** The row of the tests, difficulty MED: fetching it raises the
    [ValueError] of [__post_init__], and the connection is closed. *)
Lemma fetch_by_row_witness :
  fetch_meal_from_db mock_db_answer mock_fetchone 1
    (DbState []
       (ScriptedDb [] (Some (1%Z, "Pizza", "Italian", 12.99%float, "MED")))) =
  (inl (ValueError "Difficulty must be 'Easy', 'Medium', or 'Hard'."),
   DbState
     ([] ++
      [Connect; Cursor;
       Execute
         "SELECT id, meal, cuisine, price, difficulty FROM meals WHERE id = ?"
         [SqlInteger 1];
       Fetchone; Close])
     (ScriptedDb [] (Some (1%Z, "Pizza", "Italian", 12.99%float, "MED")))).
Proof.
  exact (@fetch_by_row float _ _ mock_db_answer mock_fetchone
           (DbState []
              (ScriptedDb [] (Some (1%Z, "Pizza", "Italian", 12.99%float, "MED"))))
           1%Z (Some (1%Z, "Pizza", "Italian", 12.99%float, "MED"))
           (ScriptedDb [] (Some (1%Z, "Pizza", "Italian", 12.99%float, "MED")))
           (ScriptedDb [] (Some (1%Z, "Pizza", "Italian", 12.99%float, "MED")))
           (ScriptedDb [] (Some (1%Z, "Pizza", "Italian", 12.99%float, "MED")))
           (ScriptedDb [] (Some (1%Z, "Pizza", "Italian", 12.99%float, "MED")))
           (ScriptedDb [] (Some (1%Z, "Pizza", "Italian", 12.99%float, "MED")))
           eq_refl eq_refl eq_refl eq_refl eq_refl).
Defined.

(** random.org does not answer: the battle of the tests raises, Pizza and
    Burger stay staged, nothing is reported. *)
Lemma battle_random_org_timeout_witness :
  battle mock_update_stats
    (RandomUtils.get_random requests_get_timeout (fun text => text)
       (fun _ => None))
    (arena [sample_meal1; sample_meal2] [] []) =
  (inl (RuntimeError "Request to random.org timed out."),
   State [sample_meal1; sample_meal2] [] (Script [] [])).
Proof.
  apply (@battle_random_org_timeout float _ _ requests_get_timeout
           (fun text => text) (fun _ => None) mock_update_stats
           (arena [sample_meal1; sample_meal2] [] [])
           sample_meal1 sample_meal2 []
           "Read timed out. (read timeout=5)" (Script [] [])).
  - reflexivity.
  - exact MED_scorable.
  - exact LOW_scorable.
  - reflexivity.
Defined.

End MoreInstances.

(** ** The threshold, in exact arithmetic *)

Section Threshold.

Variable world : Type.
Variable stats_updater : Z -> string -> world -> option exn * world.
Variable entropy_source : world -> (exn + Q) * world.

Local Notation "'battle''" := (battle stats_updater entropy_source).

(** [delta > r] without the division. *)
Lemma Q_lt_delta (gap r : Q) :
  Exact.Q_lt r (gap / inject_Z 100) = true <-> inject_Z 100 * r < gap.
Proof.
  unfold Exact.Q_lt. rewrite negb_true_iff.
  assert (H100 : 0 < inject_Z 100) by reflexivity.
  split.
  - intros Hn. apply Qnot_le_lt. intros Hle.
    assert (Hb : Qle_bool (gap / inject_Z 100) r = true).
    { apply Qle_bool_iff. apply Qle_shift_div_r; [exact H100 |].
      rewrite Qmult_comm. exact Hle. }
    congruence.
  - intros Hlt. destruct (Qle_bool (gap / inject_Z 100) r) eqn:Hb; [| reflexivity].
    apply Qle_bool_iff in Hb. exfalso. apply (Qlt_not_le _ _ Hlt).
    apply (Qmult_le_r _ _ (/ inject_Z 100)); [reflexivity |].
    setoid_replace (inject_Z 100 * r * / inject_Z 100) with r by field.
    exact Hb.
Qed.

(** X19.  With prices held exactly, the first combatant is named exactly
    when the gap between the scores exceeds 100 times the draw, and the
    second otherwise.  So a draw of at least 1 (the request to random.org
    asks for an integer from 1 to 100) names the second combatant unless
    the scores differ by more than 100, and equal scores name the second
    combatant for every draw that is not negative. *)
Theorem exact_decision_threshold (s : state world) (c1 c2 : Meal Q)
    (s1 s2 r : Q) (w : world) :
  combatants s = [c1; c2] ->
  get_battle_score c1 = inr s1 ->
  get_battle_score c2 = inr s2 ->
  entropy_source (outside s) = (inr r, w) ->
  (inject_Z 100 * r < Qabs (s1 - s2) -> declares_winner s (battle' s) c1) /\
  (Qabs (s1 - s2) <= inject_Z 100 * r -> declares_winner s (battle' s) c2) /\
  (1 <= r -> Qabs (s1 - s2) <= inject_Z 100 ->
   declares_winner s (battle' s) c2) /\
  (0 <= r -> s1 == s2 -> declares_winner s (battle' s) c2).
Proof.
  intros Hc H1 H2 Hr.
  pose proof (battle_declares stats_updater entropy_source s Hc H1 H2 Hr) as D.
  cbn [lt divide absolute minus of_int Exact.Q_PyNumber] in D.
  assert (Hsecond : Qabs (s1 - s2) <= inject_Z 100 * r ->
                    declares_winner s (battle' s) c2).
  { intros Hle.
    destruct (Exact.Q_lt r (Qabs (s1 - s2) / inject_Z 100)) eqn:E; [| exact D].
    apply Q_lt_delta in E. exfalso. apply (Qlt_not_le _ _ E Hle). }
  split; [| split; [exact Hsecond | split]].
  - intros Hlt. apply Q_lt_delta in Hlt. rewrite Hlt in D. exact D.
  - intros Hr1 Hgap. apply Hsecond.
    apply (Qle_trans _ (inject_Z 100)); [exact Hgap |].
    setoid_replace (inject_Z 100) with (inject_Z 100 * 1) at 1 by ring.
    apply Qmult_le_l; [reflexivity | exact Hr1].
  - intros Hr0 Heq. apply Hsecond.
    setoid_replace (s1 - s2) with 0 by (rewrite Heq; ring).
    change (Qabs 0) with 0.
    apply Qmult_le_0_compat; [discriminate | exact Hr0].
Qed.

End Threshold.

(** ** The threshold on the meals of the tests *)

Section ThresholdInstance.

Import Mock ScenarioExact.

(** Pizza scores 88.93 and Burger 76.92: with the draw 1, the least that
    random.org is asked for, Burger, staged second, is named. *)
Lemma exact_decision_threshold_witness :
  declares_winner (arena [sample_meal1; sample_meal2] 1)
    (battle mock_update_stats mock_get_random
       (arena [sample_meal1; sample_meal2] 1))
    sample_meal2.
Proof.
  refine (proj1 (proj2 (proj2
    (@exact_decision_threshold (script Q) mock_update_stats mock_get_random
       (arena [sample_meal1; sample_meal2] 1) sample_meal1 sample_meal2
       ((1299 # 100) * inject_Z 7 - inject_Z 2)
       ((999 # 100) * inject_Z 8 - inject_Z 3)
       1 (Script [] [])
       eq_refl eq_refl eq_refl eq_refl))) _ _).
  - unfold Qle. cbn. lia.
  - unfold Qle. cbn. lia.
Defined.

End ThresholdInstance.
